(** * web-agent: the chat-completion client and the capture-and-analyze workflow

    A shallow embedding of [src/agent/custom_openai_client.py] and
    [src/vision_scraper.py].

    - Python values that travel through JSON are the inductive [pyval];
      a dict literal that is merged by key is a [gmap string pyval].
    - A raised exception is a value of [exn] (class, [str(e)], and the
      [response] attribute that [requests] attaches); code that may raise
      returns [exn + A].
    - The client runs in a writer over the list of calls made to
      [requests.post]; the workflow runs in a state over the file system,
      the console and the list of spawned processes, and may be stopped
      by the interrupt key while it waits.
    - What the code imports ([requests], [json], [subprocess], [base64],
      the built-in formatting of values) is a field of the record
      [Library], a section variable of every function that uses it. *)

From Stdlib Require Import ZArith PrimFloat Ascii String.
From Stdlib.Strings Require Import Byte.
From stdpp Require Import base option list strings gmap pretty.

Set Warnings "-register-all,-inexact-float".

#[local] Arguments String.append !_ _ / : simpl nomatch.

Local Open Scope string_scope.
Local Open Scope list_scope.
Local Open Scope Z_scope.

(** ** Strings *)

Module Str.

Fixpoint char_in (c : ascii) (chars : string) : bool :=
  match chars with
  | EmptyString => false
  | String d rest => if Ascii.eqb c d then true else char_in c rest
  end.

(** [s.rstrip(chars)]: drops the longest suffix made of characters of
    [chars]. *)
Fixpoint rstrip (chars s : string) : string :=
  match s with
  | EmptyString => EmptyString
  | String c rest =>
      match rstrip chars rest with
      | EmptyString => if char_in c chars then EmptyString else String c EmptyString
      | kept => String c kept
      end
  end.

Fixpoint all_in (chars s : string) : bool :=
  match s with
  | EmptyString => true
  | String c rest => char_in c chars && all_in chars rest
  end.

Fixpoint last_char (s : string) : option ascii :=
  match s with
  | EmptyString => None
  | String c EmptyString => Some c
  | String _ rest => last_char rest
  end.

Fixpoint starts_with (p s : string) : bool :=
  match p, s with
  | EmptyString, _ => true
  | String a p', String b s' => Ascii.eqb a b && starts_with p' s'
  | String _ _, EmptyString => false
  end.

(** [sub in s] of Python. *)
Fixpoint containsb (sub s : string) : bool :=
  starts_with sub s ||
  match s with
  | EmptyString => false
  | String _ rest => containsb sub rest
  end.

Definition contains (sub s : string) : Prop :=
  exists pre post, s = pre +:+ sub +:+ post.

(** The one-character strings a Python [for] yields from a [str]. *)
Fixpoint chars (s : string) : list string :=
  match s with
  | EmptyString => []
  | String c rest => String c EmptyString :: chars rest
  end.

(** The characters of the ASCII range that [str.isspace] accepts: tab,
    line feed, vertical tab, form feed, carriage return, the four
    separators 28..31 and the space. *)
Definition whitespace : string :=
  String "009" (String "010" (String "011" (String "012" (String "013"
  (String "028" (String "029" (String "030" (String "031"
  (String "032" EmptyString))))))))).

(** A string holds a text in UTF-8.  The blanks of [str.strip()] are
    the code points [str.isspace] accepts: the ten above in one byte,
    U+0085 and U+00A0 in two, and U+1680, U+2000..U+200A, U+2028,
    U+2029, U+202F, U+205F and U+3000 in three. *)
Definition code (a : ascii) : N := N_of_ascii a.

Definition blank1 (a : ascii) : bool := char_in a whitespace.

Definition blank2 (a b : ascii) : bool :=
  (code a =? 194)%N && ((code b =? 133)%N || (code b =? 160)%N).

Definition blank3 (a b c : ascii) : bool :=
  ((code a =? 225)%N && (code b =? 154)%N && (code c =? 128)%N)
  || ((code a =? 226)%N && (code b =? 128)%N
      && (((128 <=? code c)%N && (code c <=? 138)%N)
          || (code c =? 168)%N || (code c =? 169)%N || (code c =? 175)%N))
  || ((code a =? 226)%N && (code b =? 129)%N && (code c =? 159)%N)
  || ((code a =? 227)%N && (code b =? 128)%N && (code c =? 128)%N).

(** [s.lstrip()] *)
Fixpoint lstrip_blanks (s : string) : string :=
  match s with
  | EmptyString => s
  | String a rest =>
      if blank1 a then lstrip_blanks rest
      else
        match rest with
        | EmptyString => s
        | String b rest2 =>
            if blank2 a b then lstrip_blanks rest2
            else
              match rest2 with
              | EmptyString => s
              | String c rest3 =>
                  if blank3 a b c then lstrip_blanks rest3 else s
              end
        end
  end.

(** A text of blanks only. *)
Definition all_blank (s : string) : bool :=
  match lstrip_blanks s with
  | EmptyString => true
  | String _ _ => false
  end.

(** [s.rstrip()]: what is kept ends where the blanks to the end begin. *)
Fixpoint rstrip_blanks (s : string) : string :=
  match s with
  | EmptyString => EmptyString
  | String a rest =>
      if all_blank s then EmptyString else String a (rstrip_blanks rest)
  end.

(** [s.strip()] *)
Definition strip (s : string) : string :=
  rstrip_blanks (lstrip_blanks s).

(** [s * n] *)
Fixpoint times (s : string) (n : nat) : string :=
  match n with
  | O => EmptyString
  | S n' => s +:+ times s n'
  end.

Definition newline : string := String "010" EmptyString.

End Str.

(** ** Python values *)

Inductive pyval : Type :=
| PNone
| PBool (b : bool)
| PInt (n : Z)
| PFloat (x : float)
| PStr (s : string)
| PList (l : list pyval)
| PDict (d : list (string * pyval)).

(** [type(v).__name__] *)
Definition type_name (v : pyval) : string :=
  match v with
  | PNone => "NoneType"
  | PBool _ => "bool"
  | PInt _ => "int"
  | PFloat _ => "float"
  | PStr _ => "str"
  | PList _ => "list"
  | PDict _ => "dict"
  end.

(** The entries of a decoded JSON object, looked up by key. *)
Fixpoint assoc {A} (k : string) (d : list (string * A)) : option A :=
  match d with
  | [] => None
  | (k', v) :: rest => if String.eqb k k' then Some v else assoc k rest
  end.

(** ** Exceptions

    The classes the two files raise or catch.  Each derives from
    [Exception]; no statement of either file raises one that does not. *)

Inductive exn_class : Type :=
| Exception_
| ValueError
| TypeError
| AttributeError
| IndexError
| OverflowError
| OSError
| FileNotFoundError
| TimeoutExpired            (* subprocess.TimeoutExpired *)
| RequestException          (* requests: ConnectionError, Timeout, ... *)
| HTTPError                 (* requests.exceptions.HTTPError *)
| RequestsJSONDecodeError   (* requests.exceptions.JSONDecodeError *)
| JSONDecodeError.          (* json.JSONDecodeError *)

Record http_response : Type := {
  status_code : Z;
  reason : string;
  resp_url : string;
  text : string
}.

Record exn : Type := {
  cls : exn_class;
  msg : string;                       (* str(e) *)
  e_response : option http_response   (* e.response, when the class has it *)
}.

Definition mk_exn (c : exn_class) (m : string) : exn :=
  {| cls := c; msg := m; e_response := None |}.

(** [isinstance(e, requests.exceptions.RequestException)].
    [requests.exceptions.JSONDecodeError] derives from [InvalidJSONError],
    a [RequestException], and from [json.JSONDecodeError]. *)
Definition is_RequestException (c : exn_class) : bool :=
  match c with
  | RequestException | HTTPError | RequestsJSONDecodeError => true
  | _ => false
  end.

(** [isinstance(e, json.JSONDecodeError)] *)
Definition is_JSONDecodeError (c : exn_class) : bool :=
  match c with
  | JSONDecodeError | RequestsJSONDecodeError => true
  | _ => false
  end.

(** [isinstance(e, subprocess.TimeoutExpired)] *)
Definition is_TimeoutExpired (c : exn_class) : bool :=
  match c with
  | TimeoutExpired => true
  | _ => false
  end.

Definition result (A : Type) : Type := (exn + A)%type.

Definition rbind {A B} (r : result A) (f : A -> result B) : result B :=
  match r with
  | inl e => inl e
  | inr a => f a
  end.

Fixpoint rmap {A B} (f : A -> result B) (l : list A) : result (list B) :=
  match l with
  | [] => inr []
  | a :: rest =>
      rbind (f a) (fun b => rbind (rmap f rest) (fun bs => inr (b :: bs)))
  end.

(** [v.get(k, default)]: only a dict has the method. *)
Definition py_get (v : pyval) (k : string) (default : pyval) : result pyval :=
  match v with
  | PDict d => inr (from_option (fun x => x) default (assoc k d))
  | _ =>
      inl (mk_exn AttributeError
             ("'" +:+ type_name v +:+ "' object has no attribute 'get'"))
  end.

(** The items a [for] loop (or a comprehension) draws from a value. *)
Definition py_iter (v : pyval) : result (list pyval) :=
  match v with
  | PList l => inr l
  | PStr s => inr (PStr <$> Str.chars s)
  | PDict d => inr ((fun kv => PStr (fst kv)) <$> d)
  | _ =>
      inl (mk_exn TypeError ("'" +:+ type_name v +:+ "' object is not iterable"))
  end.

(** An f-string hole [{v}]: a [str] is spliced as it is; any other value
    goes through the built-in formatting, [fmt]. *)
Definition py_str (fmt : pyval -> string) (v : pyval) : string :=
  match v with
  | PStr s => s
  | _ => fmt v
  end.

(** ** The response objects (custom_openai_client.py, lines 7-27) *)

Module Message.

Record t : Type := { content : pyval; role : pyval }.

Definition __init__ (message_data : pyval) : result t :=
  rbind (py_get message_data "content" PNone) (fun content =>
  rbind (py_get message_data "role" PNone) (fun role =>
  inr {| content := content; role := role |})).

End Message.

Module Choice.

Record t : Type := {
  message : Message.t;
  index : pyval;
  finish_reason : pyval
}.

Definition __init__ (choice_data : pyval) : result t :=
  rbind (py_get choice_data "message" (PDict [])) (fun message_data =>
  rbind (Message.__init__ message_data) (fun message =>
  rbind (py_get choice_data "index" PNone) (fun index =>
  rbind (py_get choice_data "finish_reason" PNone) (fun finish_reason =>
  inr {| message := message; index := index;
         finish_reason := finish_reason |})))).

End Choice.

Module ChatCompletion.

Record t : Type := {
  choices : list Choice.t;
  id_ : pyval;
  object : pyval;
  created : pyval;
  model : pyval;
  usage : pyval
}.

Definition __init__ (response_data : pyval) : result t :=
  rbind (py_get response_data "choices" (PList [])) (fun raw =>
  rbind (py_iter raw) (fun items =>
  rbind (rmap Choice.__init__ items) (fun choices =>
  rbind (py_get response_data "id" PNone) (fun id_ =>
  rbind (py_get response_data "object" PNone) (fun object =>
  rbind (py_get response_data "created" PNone) (fun created =>
  rbind (py_get response_data "model" PNone) (fun model =>
  rbind (py_get response_data "usage" PNone) (fun usage =>
  inr {| choices := choices; id_ := id_; object := object;
         created := created; model := model; usage := usage |})))))))).

End ChatCompletion.

(** ** What the client imports *)

Record http_request : Type := {
  req_url : string;
  req_headers : gmap string string;
  req_json : gmap string pyval;
  req_timeout : Z
}.

(** [Response.json()] raises its own [requests.exceptions.JSONDecodeError]
    since release 2.27 of [requests]; before, the decoder's error
    ([json.JSONDecodeError]) came through unchanged. *)
Inductive requests_release : Type :=
| Before_2_27
| Since_2_27.

Record Library : Type := {
  (** [requests.post(url, headers=, json=, timeout=)]: the response of the
      server, whatever its status, or the exception of the transport. *)
  requests_post : http_request -> result http_response;
  requests_version : requests_release;
  (** [json.loads]: the decoded value, or the text of the decoder's error. *)
  json_loads : string -> string + pyval;
  (** [format(v)] for a value that is not a [str]. *)
  format_value : pyval -> string;
  (** The text of the [TypeError] of a call that gives a parameter of the
      function a second time among its keywords: it names the function
      and the keyword that came first in the call, in a wording that
      differs between releases of the interpreter. *)
  multiple_values : string -> gmap string pyval -> string
}.

(** The writer over the calls made to [requests.post]. *)
Definition M (A : Type) : Type := (list http_request * result A)%type.

Definition calls {A} (m : M A) : list http_request := fst m.
Definition outcome {A} (m : M A) : result A := snd m.

Definition ret {A} (a : A) : M A := ([], inr a).
Definition raise {A} (e : exn) : M A := ([], inl e).
Definition lift {A} (r : result A) : M A := ([], r).

Definition bind {A B} (m : M A) (f : A -> M B) : M B :=
  match m with
  | (t1, inl e) => (t1, inl e)
  | (t1, inr a) => let '(t2, r) := f a in (t1 ++ t2, r)
  end.

(** [try: m except ... as e: h e] *)
Definition try_except {A} (m : M A) (h : exn -> M A) : M A :=
  match m with
  | (t1, inl e) => let '(t2, r) := h e in (t1 ++ t2, r)
  | (t1, inr a) => (t1, inr a)
  end.

Declare Scope py_scope.
Delimit Scope py_scope with py.
Notation "x <- m ;; k" := (bind m (fun x => k))
  (at level 100, m at next level, right associativity) : py_scope.

Section Requests.

Context (lib : Library).

Definition post (r : http_request) : M http_response :=
  ([r], requests_post lib r).

(** [Response.raise_for_status()]: an [HTTPError] carrying the response
    for a status in 400..599, nothing for any other status. *)
Definition raise_for_status (r : http_response) : result unit :=
  let http_error (kind : string) :=
    {| cls := HTTPError;
       msg := pretty (status_code r) +:+ " " +:+ kind +:+ " Error: "
              +:+ reason r +:+ " for url: " +:+ resp_url r;
       e_response := Some r |} in
  if (400 <=? status_code r) && (status_code r <? 500)
  then inl (http_error "Client")
  else if (500 <=? status_code r) && (status_code r <? 600)
  then inl (http_error "Server")
  else inr tt.

(** [Response.json()] *)
Definition response_json (r : http_response) : result pyval :=
  match json_loads lib (text r) with
  | inr v => inr v
  | inl m =>
      inl (mk_exn match requests_version lib with
                  | Since_2_27 => RequestsJSONDecodeError
                  | Before_2_27 => JSONDecodeError
                  end m)
  end.

End Requests.

(** ** Keyword arguments

    [def f(self, model, messages, max_tokens=1000, temperature=0.1, **kwargs)]:
    a call through the bound method fills [self], the call gives the four
    parameters after it, and [kwargs] collects the keywords that name
    none of the five.  A call whose extra keywords name one of the five
    gives that parameter a second time: a [TypeError] of the call itself,
    raised before the body runs. *)

Definition named_parameters : list string :=
  ["self"; "model"; "messages"; "max_tokens"; "temperature"].

Definition bind_kwargs (lib : Library) (fname : string)
    (extra : gmap string pyval) : result (gmap string pyval) :=
  match List.find (fun k => bool_decide (is_Some (extra !! k))) named_parameters with
  | Some _ => inl (mk_exn TypeError (multiple_values lib fname extra))
  | None => inr extra
  end.

(** ** The client (custom_openai_client.py, lines 57-121) *)

Module CustomOpenAIClient.

Record t : Type := { api_key : string; base_url : string }.

Definition default_base_url : string := "https://api.omnia.reainternal.net".

(** Truth value of an optional string: [None] and [""] are false. *)
Definition truthy (o : option string) : bool :=
  match o with
  | Some (String _ _) => true
  | _ => false
  end.

(** [a or b] *)
Definition py_or (a b : option string) : option string :=
  if truthy a then a else b.

Definition __init__ (environ : gmap string string)
    (api_key : option string) (base_url : string) : M t :=
  let key := py_or api_key (environ !! "OPENAI_API_KEY") in
  let base := Str.rstrip "/" base_url in
  match key with
  | Some (String c k) => ret {| api_key := String c k; base_url := base |}
  | _ =>
      raise (mk_exn ValueError
        "API key is required. Set OPENAI_API_KEY environment variable or pass api_key parameter.")
  end.

Definition _get_headers (self : t) : gmap string string :=
  {[ "Authorization" := "Bearer " +:+ api_key self;
     "Content-Type" := "application/json";
     "User-Agent" := "CustomOpenAIClient/1.0" ]}.

(** The dict literal of lines 90-96: the four named entries, then
    [**kwargs] written over them. *)
Definition payload (model : string) (messages : list pyval) (max_tokens : Z)
    (temperature : float) (kwargs : gmap string pyval) : gmap string pyval :=
  kwargs ∪ {[ "model" := PStr model;
              "messages" := PList messages;
              "max_tokens" := PInt max_tokens;
              "temperature" := PFloat temperature ]}.

Section Methods.

Context (lib : Library).

(** Lines 108-115: the text put after ["API request failed: "]. *)
Definition error_message (e : exn) : pyval :=
  match e_response e with
  | Some r =>
      match
        rbind (response_json lib r) (fun error_data =>
        rbind (py_get error_data "error" (PDict [])) (fun err =>
        py_get err "message" (PStr (msg e))))
      with
      | inr m => m
      | inl _ => PStr ("HTTP " +:+ pretty (status_code r) +:+ ": " +:+ text r)
      end
  | None => PStr (msg e)
  end.

(** The three [except] clauses of lines 107-121, tried in order. *)
Definition handler {A} (e : exn) : M A :=
  if is_RequestException (cls e) then
    raise (mk_exn Exception_
             ("API request failed: " +:+ py_str (format_value lib) (error_message e)))
  else if is_JSONDecodeError (cls e) then
    raise (mk_exn Exception_ ("Failed to parse API response: " +:+ msg e))
  else
    raise (mk_exn Exception_ ("Unexpected error: " +:+ msg e)).

Definition _make_chat_request (self : t) (model : string)
    (messages : list pyval) (max_tokens : Z) (temperature : float)
    (extra : gmap string pyval) : M ChatCompletion.t :=
  (kwargs <- lift (bind_kwargs lib "_make_chat_request" extra) ;;
   let url := base_url self +:+ "/v1/chat/completions" in
   let payload := payload model messages max_tokens temperature kwargs in
   let headers := _get_headers self in
   try_except
     (response <- post lib {| req_url := url; req_headers := headers;
                              req_json := payload; req_timeout := 60 |} ;;
      _ <- lift (raise_for_status response) ;;
      response_data <- lift (response_json lib response) ;;
      lift (ChatCompletion.__init__ response_data))
     handler)%py.

End Methods.

End CustomOpenAIClient.

Module ChatCompletions.

Record t : Type := { api_client : CustomOpenAIClient.t }.

Definition create (lib : Library) (self : t) (model : string)
    (messages : list pyval) (max_tokens : Z) (temperature : float)
    (extra : gmap string pyval) : M ChatCompletion.t :=
  (kwargs <- lift (bind_kwargs lib "create" extra) ;;
   CustomOpenAIClient._make_chat_request lib (api_client self)
     model messages max_tokens temperature kwargs)%py.

End ChatCompletions.

Module Chat.

Record t : Type := { completions : ChatCompletions.t }.

Definition __init__ (api_client : CustomOpenAIClient.t) : t :=
  {| completions := {| ChatCompletions.api_client := api_client |} |}.

End Chat.

(** [client.chat], set at line 63. *)
Definition chat (client : CustomOpenAIClient.t) : Chat.t := Chat.__init__ client.

(** [client.chat.completions.create(...)] *)
Definition client_create (lib : Library) (client : CustomOpenAIClient.t) :=
  ChatCompletions.create lib (Chat.completions (chat client)).

(** ** The workflow (vision_scraper.py) *)

Inductive node : Type :=
| File (data : list byte)
| Dir.

Record completed_process : Type := {
  returncode : Z;
  stdout : string;
  stderr : string
}.

(** What a statement of the workflow raises: an exception of the
    [Exception] family, or the [KeyboardInterrupt] of the interrupt key,
    pressed while the program waits for its child process or for a typed
    line.  [KeyboardInterrupt] is no [Exception]: an [except Exception]
    clause lets it pass.  The client is taken to raise exceptions of the
    [Exception] family only. *)
Inductive raised : Type :=
| Err (e : exn)
| KeyboardInterrupt.

Coercion Err : exn >-> raised.

(** One run of [subprocess.run]: the command line, the time limit in
    seconds, and the files the child found when it started. *)
Record invocation : Type := {
  inv_args : list string;
  inv_timeout : float;
  inv_files : gmap string node
}.

Record world : Type := {
  files : gmap string node;
  console : list string;
  spawned : list invocation
}.

(** The client object the scraper holds, by the one method it calls:
    [client.chat.completions.create(model=, messages=, max_tokens=,
    temperature=)]. *)
Definition completions_api : Type :=
  string -> list pyval -> Z -> float -> result ChatCompletion.t.

Record System : Type := {
  (** [subprocess.run(args, capture_output=True, text=True, timeout=)]:
      the finished process, the exception of the call (a
      [TimeoutExpired], an [OSError] when [node] cannot be started) or
      the interrupt that ends the wait, and the files the child leaves
      behind. *)
  subprocess_run :
    list string -> float -> gmap string node ->
    (raised + completed_process) * gmap string node;
  (** [base64.b64encode(data).decode("utf-8")] *)
  b64encode : list byte -> string;
  (** [str(n)] for an int of more than 53 bits: its decimal digits, or
      the [ValueError] of an interpreter that limits their number. *)
  wide_int_str : Z -> result string;
  (** [n / d] for an int [n] of more than 53 bits: the nearest double,
      or [OverflowError] when the quotient is beyond the doubles. *)
  wide_int_div : Z -> Z -> result float
}.

(** ** Integers in the workflow

    An int of at most 53 bits is a double exactly; its quotient by
    another is then the one rounding of the doubles, and its [str] the
    decimal digits.  A wider int goes to the interpreter. *)

Fixpoint float_of_pos (p : positive) : float :=
  match p with
  | xH => 1%float
  | xO q => (2 * float_of_pos q)%float
  | xI q => (2 * float_of_pos q + 1)%float
  end.

Definition float_of_Z (n : Z) : float :=
  match n with
  | Z0 => 0%float
  | Zpos p => float_of_pos p
  | Zneg p => (- float_of_pos p)%float
  end.

Definition is_narrow (n : Z) : bool := Z.abs n <? 2 ^ 53.

(** [str(n)] *)
Definition int_str (sys : System) (n : Z) : result string :=
  if is_narrow n then inr (pretty n) else wide_int_str sys n.

(** [n / d] for a narrow [d] *)
Definition int_div (sys : System) (n d : Z) : result float :=
  if is_narrow n then inr (float_of_Z n / float_of_Z d)%float
  else wide_int_div sys n d.

Module VisionScraper.

Definition W (A : Type) : Type := world -> (raised + A) * world.

Definition ret {A} (a : A) : W A := fun w => (inr a, w).
Definition raise {A} (e : exn) : W A := fun w => (inl (Err e), w).

Definition lift {A} (r : result A) : W A :=
  fun w =>
    (match r with
     | inl e => inl (Err e)
     | inr a => inr a
     end, w).

Definition bind {A B} (m : W A) (f : A -> W B) : W B :=
  fun w =>
    match m w with
    | (inl e, w') => (inl e, w')
    | (inr a, w') => f a w'
    end.

(** [try: m except Exception as e: h e] *)
Definition try_except {A} (m : W A) (h : exn -> W A) : W A :=
  fun w =>
    match m w with
    | (inl (Err e), w') => h e w'
    | (inl KeyboardInterrupt, w') => (inl KeyboardInterrupt, w')
    | (inr a, w') => (inr a, w')
    end.

Declare Scope scraper_scope.
Delimit Scope scraper_scope with scraper.
Notation "x <- m ;; k" := (bind m (fun x => k))
  (at level 100, m at next level, right associativity) : scraper_scope.

Definition print (line : string) : W unit :=
  fun w => (inr tt, {| files := files w; console := console w ++ [line];
                       spawned := spawned w |}).

Definition os_path_exists (path : string) : W bool :=
  fun w => (inr (bool_decide (is_Some (files w !! path))), w).

(** [os.remove]: unlinks a file; a directory is refused. *)
Definition os_remove (path : string) : W unit :=
  fun w =>
    match files w !! path with
    | Some (File _) =>
        (inr tt, {| files := delete path (files w); console := console w;
                    spawned := spawned w |})
    | Some Dir =>
        raise (mk_exn OSError ("[Errno 21] Is a directory: '" +:+ path +:+ "'")) w
    | None =>
        raise (mk_exn FileNotFoundError
                 ("[Errno 2] No such file or directory: '" +:+ path +:+ "'")) w
    end.

(** [open(path, "rb").read()] *)
Definition read_binary (path : string) : W (list byte) :=
  fun w =>
    match files w !! path with
    | Some (File data) => (inr data, w)
    | Some Dir =>
        raise (mk_exn OSError ("[Errno 21] Is a directory: '" +:+ path +:+ "'")) w
    | None =>
        raise (mk_exn FileNotFoundError
                 ("[Errno 2] No such file or directory: '" +:+ path +:+ "'")) w
    end.

Definition is_FileNotFoundError (c : exn_class) : bool :=
  match c with
  | FileNotFoundError => true
  | _ => false
  end.

Record t : Type := { client : completions_api }.

(** Lines 13-17.  [OpenAI] is the constructor imported at line 6, given
    the [api_key] keyword. *)
Definition __init__ (OpenAI : option string -> result completions_api)
    (environ : gmap string string) : result t :=
  rbind (OpenAI (environ !! "OPENAI_API_KEY")) (fun client =>
  if negb (CustomOpenAIClient.truthy (environ !! "OPENAI_API_KEY")) then
    inl (mk_exn ValueError "OPENAI_API_KEY not found in environment variables")
  else
    inr {| client := client |}).

Section Methods.

Context (sys : System).

Definition run (args : list string) (limit : float) : W completed_process :=
  fun w =>
    let '(r, files') := subprocess_run sys args limit (files w) in
    (r, {| files := files'; console := console w;
           spawned := spawned w ++ [{| inv_args := args; inv_timeout := limit;
                                       inv_files := files w |}] |}).

Definition encode_image (self : t) (image_path : string) : W string :=
  try_except
    (data <- read_binary image_path ;;
     ret (b64encode sys data))%scraper
    (fun e =>
       if is_FileNotFoundError (cls e) then
         raise (mk_exn FileNotFoundError ("Image file not found: " +:+ image_path))
       else
         raise (mk_exn Exception_ ("Error encoding image: " +:+ msg e))).

Definition screenshot_path : string := "screenshot.jpg".

(** The two arguments of lines 41-44 computed from the timeout, in the
    order of the call: [str(timeout)], then [timeout / 1000 + 10]. *)
Definition screenshot_call (timeout : Z) : result (string * float) :=
  rbind (int_str sys timeout) (fun text =>
  rbind (int_div sys timeout 1000) (fun quotient =>
  inr (text, (quotient + 10)%float))).

Definition take_screenshot (self : t) (url : string) (timeout : Z) : W string :=
  (present <- os_path_exists screenshot_path ;;
   _ <- (if (present : bool) then
           (_ <- os_remove screenshot_path ;;
            print "Removed existing screenshot")
         else ret tt) ;;
   try_except
     (_ <- print ("Taking screenshot of: " +:+ url) ;;
      call <- lift (screenshot_call timeout) ;;
      result <- run ["node"; "screenshot.js"; url; fst call] (snd call) ;;
      _ <- (if returncode result =? 0 then ret tt
            else raise (mk_exn Exception_
                          ("Screenshot script failed: " +:+ stderr result))) ;;
      _ <- print "Screenshot taken successfully" ;;
      ret screenshot_path)
     (fun e =>
        if is_TimeoutExpired (cls e) then
          raise (mk_exn Exception_ "Screenshot process timed out")
        else
          raise (mk_exn Exception_ ("Error taking screenshot: " +:+ msg e))))%scraper.

(** The single user message of lines 69-83. *)
Definition vision_messages (prompt base64_image : string) : list pyval :=
  [PDict
     [("role", PStr "user");
      ("content",
        PList
          [PDict [("type", PStr "text"); ("text", PStr prompt)];
           PDict
             [("type", PStr "image_url");
              ("image_url",
                PDict
                  [("url", PStr ("data:image/jpeg;base64," +:+ base64_image));
                   ("detail", PStr "high")])]])]].

(** [l[0]] *)
Definition first_item {A} (l : list A) : result A :=
  match l with
  | x :: _ => inr x
  | [] => inl (mk_exn IndexError "list index out of range")
  end.

Definition analyze_screenshot (self : t) (image_path prompt model : string)
    (max_tokens : Z) : W pyval :=
  try_except
    (base64_image <- encode_image self image_path ;;
     response <- lift (client self model (vision_messages prompt base64_image)
                         max_tokens 0.1%float) ;;
     choice <- lift (first_item (ChatCompletion.choices response)) ;;
     ret (Message.content (Choice.message choice)))%scraper
    (fun e =>
       raise (mk_exn Exception_
                ("Error analyzing screenshot with GPT-4V: " +:+ msg e))).

Definition success_result (url path : string) (analysis : pyval)
  : gmap string pyval :=
  {[ "url" := PStr url;
     "screenshot_path" := PStr path;
     "analysis" := analysis;
     "success" := PBool true ]}.

Definition failure_result (url error : string) : gmap string pyval :=
  {[ "url" := PStr url; "error" := PStr error; "success" := PBool false ]}.

Definition scrape_and_analyze (self : t) (url prompt : string) (timeout : Z)
  : W (gmap string pyval) :=
  try_except
    (screenshot_path <- take_screenshot self url timeout ;;
     analysis <- analyze_screenshot self screenshot_path prompt
                   "gpt-4-vision-preview" 1000 ;;
     ret (success_result url screenshot_path analysis))%scraper
    (fun e => ret (failure_result url (msg e))).

End Methods.

End VisionScraper.

(** The scraper's client when it is the client of this repository. *)
Definition completions_of (lib : Library) (c : CustomOpenAIClient.t)
  : completions_api :=
  fun model messages max_tokens temperature =>
    outcome (client_create lib c model messages max_tokens temperature ∅).

(** [OpenAI(api_key=key)] when [OpenAI] is the alias of line 125: the
    client of this repository at its default base URL. *)
Definition repo_OpenAI (lib : Library) (environ : gmap string string)
    (key : option string) : result completions_api :=
  rbind (outcome (CustomOpenAIClient.__init__ environ key
                    CustomOpenAIClient.default_base_url))
        (fun c => inr (completions_of lib c)).

(** ** The command line (vision_scraper.py, lines 113-142)

    A session is the lines still to be typed, what the user does when
    none is left (the input is closed, or the interrupt key is pressed)
    and the world around; the console of the world takes one entry per
    write.  What stops the [try] of [main] is an [Exception], kept by its
    [str(e)], the one thing its clause uses, or a [KeyboardInterrupt]. *)

Inductive key : Type :=
| EndOfFile
| Interrupt.

Record session : Type := {
  typed : list string;
  at_end : key;
  around : world
}.

Inductive stopped : Type :=
| Failed (text : string)
| Cancelled.

Definition T (A : Type) : Type := session -> (stopped + A) * session.

Definition tret {A} (a : A) : T A := fun s => (inr a, s).

Definition tbind {A B} (m : T A) (f : A -> T B) : T B :=
  fun s =>
    match m s with
    | (inl e, s') => (inl e, s')
    | (inr a, s') => f a s'
    end.

Declare Scope main_scope.
Delimit Scope main_scope with main.
Notation "x <- m ;; k" := (tbind m (fun x => k))
  (at level 100, m at next level, right associativity) : main_scope.

Definition in_world {A} (m : VisionScraper.W A) : T A :=
  fun s =>
    let '(r, w') := m (around s) in
    (match r with
     | inl (Err e) => inl (Failed (msg e))
     | inl KeyboardInterrupt => inl Cancelled
     | inr a => inr a
     end,
     {| typed := typed s; at_end := at_end s; around := w' |}).

Definition of_result {A} (r : result A) : T A :=
  in_world (VisionScraper.lift r).

Definition say (line : string) : T unit :=
  in_world (VisionScraper.print line).

(** [input(prompt)]: writes the prompt and takes the next line, without
    its line end.  When there is none it raises [EOFError] on a closed
    input and [KeyboardInterrupt] on the interrupt key. *)
Definition input (prompt : string) : T string :=
  fun s =>
    let w := around s in
    let w' := {| files := files w; console := console w ++ [prompt];
                 spawned := spawned w |} in
    match typed s with
    | line :: rest =>
        (inr line, {| typed := rest; at_end := at_end s; around := w' |})
    | [] =>
        (inl match at_end s with
             | EndOfFile => Failed "EOF when reading a line"
             | Interrupt => Cancelled
             end,
         {| typed := []; at_end := at_end s; around := w' |})
    end.

(** [d[k]] on a dict with string keys; [str] of the [KeyError]
    otherwise. *)
Definition item (d : gmap string pyval) (k : string) : T pyval :=
  fun s =>
    match d !! k with
    | Some v => (inr v, s)
    | None => (inl (Failed ("'" +:+ k +:+ "'")), s)
    end.

(** Truth value of a Python value. *)
Definition py_truthy (v : pyval) : bool :=
  match v with
  | PNone => false
  | PBool b => b
  | PInt n => negb (n =? 0)
  | PFloat x => negb (PrimFloat.eqb x 0%float)
  | PStr s => negb (String.eqb s EmptyString)
  | PList l => match l with [] => false | _ => true end
  | PDict d => match d with [] => false | _ => true end
  end.

Definition default_url : string := "https://example.com".

Definition default_prompt : string :=
  "Describe what you see on this webpage. Include any important text, buttons, links, and overall layout.".

Definition rule : string := Str.times "=" 50.

(** A line as typed, stripped, or the default when nothing is left. *)
Definition or_default (line default : string) : string :=
  match Str.strip line with
  | EmptyString => default
  | answer => answer
  end.

Definition main (OpenAI : option string -> result completions_api)
    (sys : System) (environ : gmap string string) (fmt : pyval -> string)
  : session -> session :=
  fun s =>
    match
      (scraper <- of_result (VisionScraper.__init__ OpenAI environ) ;;
       line <- input "Enter URL to scrape: " ;;
       let url := or_default line default_url in
       line <- input "Enter analysis prompt (default: describe the page): " ;;
       let prompt := or_default line default_prompt in
       _ <- say ("Scraping and analyzing: " +:+ url) ;;
       result <- in_world
                   (VisionScraper.scrape_and_analyze sys scraper url prompt 30000) ;;
       success <- item result "success" ;;
       if py_truthy success then
         (_ <- say (Str.newline +:+ rule) ;;
          _ <- say "ANALYSIS RESULT:" ;;
          _ <- say rule ;;
          analysis <- item result "analysis" ;;
          _ <- say (py_str fmt analysis) ;;
          say (Str.newline +:+ rule))
       else
         (error <- item result "error" ;;
          say ("Error: " +:+ py_str fmt error)))%main s
    with
    | (inr _, s') => s'
    | (inl Cancelled, s') =>
        snd (say (Str.newline +:+ "Operation cancelled by user") s')
    | (inl (Failed e), s') => snd (say ("Error: " +:+ e) s')
    end.

(** ** Vocabulary of the properties *)

(** What [d.get(k)] returns. *)
Definition field (k : string) (d : list (string * pyval)) : pyval :=
  from_option (fun x => x) PNone (assoc k d).

Definition absent_or (ok : pyval -> bool) (o : option pyval) : bool :=
  match o with
  | None => true
  | Some v => ok v
  end.

Definition is_dict (v : pyval) : bool :=
  match v with PDict _ => true | _ => false end.

Definition is_str (v : pyval) : bool :=
  match v with PStr _ => true | _ => false end.

Definition is_int (v : pyval) : bool :=
  match v with PInt _ => true | _ => false end.

Definition is_list_of (ok : pyval -> bool) (v : pyval) : bool :=
  match v with PList l => forallb ok l | _ => false end.

(** A response object whose keys may all be missing, and whose present
    containers have the container type: ["choices"] a list of objects,
    ["message"] an object. *)
Definition choice_shape (v : pyval) : bool :=
  match v with
  | PDict d => absent_or is_dict (assoc "message" d)
  | _ => false
  end.

Definition response_shape (d : list (string * pyval)) : bool :=
  absent_or (is_list_of choice_shape) (assoc "choices" d).

(** The response wire shape as documented, every field optional:
    [{"id": string, "object": string, "created": int, "model": string,
      "usage": object, "choices": [{"index": int, "finish_reason": string,
      "message": {"role": string, "content": string}}]}]. *)
Definition message_schema (v : pyval) : bool :=
  match v with
  | PDict d =>
      absent_or is_str (assoc "role" d) && absent_or is_str (assoc "content" d)
  | _ => false
  end.

Definition choice_schema (v : pyval) : bool :=
  match v with
  | PDict d =>
      absent_or is_int (assoc "index" d)
      && absent_or is_str (assoc "finish_reason" d)
      && absent_or message_schema (assoc "message" d)
  | _ => false
  end.

Definition response_schema (v : pyval) : bool :=
  match v with
  | PDict d =>
      absent_or is_str (assoc "id" d)
      && absent_or is_str (assoc "object" d)
      && absent_or is_int (assoc "created" d)
      && absent_or is_str (assoc "model" d)
      && absent_or is_dict (assoc "usage" d)
      && absent_or (is_list_of choice_schema) (assoc "choices" d)
  | _ => false
  end.

(** [body["choices"][0]["message"]["content"]] of a decoded body. *)
Definition first_content (body : pyval) : option pyval :=
  match body with
  | PDict d =>
      match assoc "choices" d with
      | Some (PList (PDict cd :: _)) =>
          match assoc "message" cd with
          | Some (PDict md) => assoc "content" md
          | _ => None
          end
      | _ => None
      end
  | _ => None
  end.

(** A missing key of a message, and of a choice, reads as [None]; a
    missing ["message"] reads as a message with both fields [None]. *)
Definition message_unset (md : list (string * pyval)) (m : Message.t) : Prop :=
  (assoc "content" md = None -> Message.content m = PNone) /\
  (assoc "role" md = None -> Message.role m = PNone).

Definition choice_unset (raw : pyval) (c : Choice.t) : Prop :=
  exists cd,
    raw = PDict cd /\
    (assoc "index" cd = None -> Choice.index c = PNone) /\
    (assoc "finish_reason" cd = None -> Choice.finish_reason c = PNone) /\
    (assoc "message" cd = None ->
     Choice.message c = {| Message.content := PNone; Message.role := PNone |}) /\
    (forall md, assoc "message" cd = Some (PDict md) ->
                message_unset md (Choice.message c)).

(** What reading an attribute of a decoded choice gives: a value kept as
    it came in the body, or the object the decoder built. *)
Inductive attribute : Type :=
| Kept (v : pyval)
| Built (m : Message.t).

(** [getattr(choice, k)] *)
Definition choice_attribute (c : Choice.t) (k : string) : option attribute :=
  if String.eqb k "message" then Some (Built (Choice.message c))
  else if String.eqb k "index" then Some (Kept (Choice.index c))
  else if String.eqb k "finish_reason" then Some (Kept (Choice.finish_reason c))
  else None.

(** A key missing from a choice object reads as [None] once decoded. *)
Definition missing_reads_None (cd : list (string * pyval)) (k : string) : Prop :=
  assoc k cd = None ->
  exists c, Choice.__init__ (PDict cd) = inr c /\
            choice_attribute c k = Some (Kept PNone).

Definition raw_choices (d : list (string * pyval)) : list pyval :=
  match assoc "choices" d with
  | Some (PList l) => l
  | _ => []
  end.

(** The request the client is to send for a call. *)
Definition sent_request (self : CustomOpenAIClient.t) (model : string)
    (messages : list pyval) (max_tokens : Z) (temperature : float)
    (extra : gmap string pyval) : http_request :=
  {| req_url := CustomOpenAIClient.base_url self +:+ "/v1/chat/completions";
     req_headers := CustomOpenAIClient._get_headers self;
     req_json :=
       CustomOpenAIClient.payload model messages max_tokens temperature extra;
     req_timeout := 60 |}.

(** The named entry of the body under a key, if the key is a named one. *)
Definition named_entry (model : string) (messages : list pyval)
    (max_tokens : Z) (temperature : float) (k : string) : option pyval :=
  if String.eqb k "model" then Some (PStr model)
  else if String.eqb k "messages" then Some (PList messages)
  else if String.eqb k "max_tokens" then Some (PInt max_tokens)
  else if String.eqb k "temperature" then Some (PFloat temperature)
  else None.

(** One POST to [{base_url}/v1/chat/completions] whose body is the merge
    of the named fields and the extra parameters, an extra parameter
    winning over a named field of the same key. *)
Definition one_merged_post (lib : Library) (self : CustomOpenAIClient.t)
    (model : string) (messages : list pyval) (max_tokens : Z)
    (temperature : float) (extra : gmap string pyval) : Prop :=
  exists req,
    calls (client_create lib self model messages max_tokens temperature extra)
    = [req] /\
    req_url req = CustomOpenAIClient.base_url self +:+ "/v1/chat/completions" /\
    forall k,
      req_json req !! k
      = match extra !! k with
        | Some v => Some v
        | None => named_entry model messages max_tokens temperature k
        end.

(** What the [except] clauses of lines 107-121 raise for an exception
    of the [try] body. *)
Definition handled (lib : Library) (e : exn) : result ChatCompletion.t :=
  outcome (CustomOpenAIClient.handler lib e).

(** A 2xx response yields a completion whose first choice carries the
    content of the first choice of the body. *)
Definition returns_first_content (lib : Library) (self : CustomOpenAIClient.t)
    (model : string) (messages : list pyval) (max_tokens : Z)
    (temperature : float) (extra : gmap string pyval) (content : string)
  : Prop :=
  exists c ch chs,
    outcome (client_create lib self model messages max_tokens temperature extra)
    = inr c /\
    ChatCompletion.choices c = ch :: chs /\
    Message.content (Choice.message ch) = PStr content.

(** The extra keywords of a call name no parameter of the method. *)
Definition extra_is_extra (extra : gmap string pyval) : Prop :=
  forall k,
    k ∈ ["self"; "model"; "messages"; "max_tokens"; "temperature"] ->
    extra !! k = None.

Definition is_2xx (r : http_response) : Prop :=
  200 <= status_code r < 300.

Definition is_4xx_5xx (r : http_response) : Prop :=
  400 <= status_code r < 600.

(** The shape of the message of a transport failure (line 117). *)
Definition transport_shape (m : string) : bool :=
  Str.starts_with "API request failed: " m.

(** Every response outside 2xx whose body is
    [{"error": {"message": m}}] makes the call raise an error whose
    message contains [m]. *)
Definition surfaces_error_message (lib : Library) (self : CustomOpenAIClient.t)
    (model : string) (messages : list pyval) (max_tokens : Z)
    (temperature : float) (extra : gmap string pyval) : Prop :=
  forall response m,
    requests_post lib
      (sent_request self model messages max_tokens temperature extra)
    = inr response ->
    (~ is_2xx response) ->
    json_loads lib (text response)
    = inr (PDict [("error", PDict [("message", PStr m)])]) ->
    exists e,
      outcome (client_create lib self model messages max_tokens temperature extra)
      = inl e /\
      Str.contains m (msg e).

(** Every response outside 2xx whose body is not JSON makes the call
    raise an error whose message contains the status code and the body. *)
Definition surfaces_status_and_body (lib : Library)
    (self : CustomOpenAIClient.t) (model : string) (messages : list pyval)
    (max_tokens : Z) (temperature : float) (extra : gmap string pyval) : Prop :=
  forall response decoder_error,
    requests_post lib
      (sent_request self model messages max_tokens temperature extra)
    = inr response ->
    (~ is_2xx response) ->
    json_loads lib (text response) = inl decoder_error ->
    exists e,
      outcome (client_create lib self model messages max_tokens temperature extra)
      = inl e /\
      Str.contains (pretty (status_code response)) (msg e) /\
      Str.contains (text response) (msg e).

(** The command line of the screenshot process, [text] being
    [str(timeout)]. *)
Definition screenshot_args (url text : string) : list string :=
  ["node"; "screenshot.js"; url; text].

(** A process that found no file at the conventional path. *)
Definition started_clean (i : invocation) : Prop :=
  inv_files i !! VisionScraper.screenshot_path = None.

(** The screenshot process of a call, started after the path is cleared. *)
Definition clean_start (url text : string) (limit : float) (w : world)
  : invocation :=
  {| inv_args := screenshot_args url text;
     inv_timeout := limit;
     inv_files := delete VisionScraper.screenshot_path (files w) |}.

(** What the handlers of lines 53-56 make of an exception. *)
Definition screenshot_error (e : exn) : exn :=
  mk_exn Exception_
    (if is_TimeoutExpired (cls e) then "Screenshot process timed out"
     else "Error taking screenshot: " +:+ msg e).

(** The workflow returns a dict whatever happens. *)
Definition always_returns (sys : System) (self : VisionScraper.t)
    (url prompt : string) (timeout : Z) (w : world) : Prop :=
  exists d,
    fst (VisionScraper.scrape_and_analyze sys self url prompt timeout w)
    = inr d.

(** A run of blanks: code points that [str.isspace] accepts, in UTF-8. *)
Inductive blank_run : string -> Prop :=
| blank_none : blank_run EmptyString
| blank_one a s :
    Str.blank1 a = true -> blank_run s -> blank_run (String a s)
| blank_two a b s :
    Str.blank2 a b = true -> blank_run s -> blank_run (String a (String b s))
| blank_three a b c s :
    Str.blank3 a b c = true -> blank_run s ->
    blank_run (String a (String b (String c s))).

(** A printable character of the ASCII range other than the space. *)
Definition visible (a : ascii) : bool :=
  (33 <=? Str.code a)%N && (Str.code a <=? 126)%N.

Fixpoint has_visible (s : string) : bool :=
  match s with
  | EmptyString => false
  | String a rest => visible a || has_visible rest
  end.

(** A text that begins and ends with such a character. *)
Definition framed (s : string) : Prop :=
  exists a rest z,
    s = String a rest /\ visible a = true /\
    Str.last_char s = Some z /\ visible z = true.

(** What [main] makes of a typed line: the text between the blanks
    around it, or the default when the line is blanks only. *)
Definition answer (line default value : string) : Prop :=
  exists before text after,
    line = before +:+ text +:+ after /\
    blank_run before /\ blank_run after /\
    ((text = EmptyString /\ value = default) \/
     (framed text /\ value = text)).

(** A value a [for] loop cannot draw from. *)
Definition is_scalar (v : pyval) : bool :=
  match v with
  | PNone | PBool _ | PInt _ | PFloat _ => true
  | _ => false
  end.

(** A decoded choice holds what its object held, key by key. *)
Definition choice_kept (raw : pyval) (c : Choice.t) : Prop :=
  exists cd,
    raw = PDict cd /\
    Choice.index c = field "index" cd /\
    Choice.finish_reason c = field "finish_reason" cd /\
    match assoc "message" cd with
    | Some (PDict md) =>
        Message.content (Choice.message c) = field "content" md /\
        Message.role (Choice.message c) = field "role" md
    | _ =>
        Choice.message c = {| Message.content := PNone; Message.role := PNone |}
    end.

(** The three openings of the messages [_make_chat_request] raises. *)
Definition client_error_shape (m : string) : bool :=
  Str.starts_with "API request failed: " m
  || Str.starts_with "Failed to parse API response: " m
  || Str.starts_with "Unexpected error: " m.

(** [str(e)] of the [HTTPError] of [raise_for_status]. *)
Definition http_error_text (r : http_response) : string :=
  pretty (status_code r) +:+ " "
  +:+ (if status_code r <? 500 then "Client" else "Server")
  +:+ " Error: " +:+ reason r +:+ " for url: " +:+ resp_url r.

(** The key the constructor settles on. *)
Definition resolves_to (environ : gmap string string)
    (api_key : option string) (k : string) : Prop :=
  k <> "" /\
  (api_key = Some k \/
   ((api_key = None \/ api_key = Some "") /\
    environ !! "OPENAI_API_KEY" = Some k)).

(** The opening of every message [analyze_screenshot] raises. *)
Definition analysis_error (m : string) : string :=
  "Error analyzing screenshot with GPT-4V: " +:+ m.

(** What the screenshot step writes to the console, by whether an image
    was there and whether the step returned. *)
Definition screenshot_log (url : string) (removed returned : bool)
  : list string :=
  (if removed then ["Removed existing screenshot"] else [])
  ++ ["Taking screenshot of: " +:+ url]
  ++ (if returned then ["Screenshot taken successfully"] else []).

Definition is_file (o : option node) : bool :=
  match o with Some (File _) => true | _ => false end.

Definition returned {E A} (r : E + A) : bool :=
  match r with inr _ => true | inl _ => false end.

(** The world after some lines were written to the console. *)
Definition wrote (w : world) (lines : list string) : world :=
  {| files := files w; console := console w ++ lines; spawned := spawned w |}.

(** The world when [main] has asked its two questions and announced the
    URL. *)
Definition asked (url : string) (w : world) : world :=
  wrote w ["Enter URL to scrape: ";
           "Enter analysis prompt (default: describe the page): ";
           "Scraping and analyzing: " +:+ url].

(** The five writes of a successful run. *)
Definition analysis_report (text : string) : list string :=
  [Str.newline +:+ rule; "ANALYSIS RESULT:"; rule; text; Str.newline +:+ rule].

(** ** Sample surroundings *)

Module Sample.

Definition dq : string := String "034"%char EmptyString.

(** [{"error": {"message": "rate limited"}}] *)
Definition rate_limited_text : string :=
  "{" +:+ dq +:+ "error" +:+ dq +:+ ": {" +:+ dq +:+ "message" +:+ dq +:+ ": "
  +:+ dq +:+ "rate limited" +:+ dq +:+ "}}".

Definition rate_limited : pyval :=
  PDict [("error", PDict [("message", PStr "rate limited")])].

(** [{"choices": [{"message": {"content": "a login form"}}]}] *)
Definition completion_text : string :=
  "{" +:+ dq +:+ "choices" +:+ dq +:+ ": [{" +:+ dq +:+ "message" +:+ dq
  +:+ ": {" +:+ dq +:+ "content" +:+ dq +:+ ": " +:+ dq +:+ "a login form"
  +:+ dq +:+ "}}]}".

Definition completion : pyval :=
  PDict [("choices",
          PList [PDict [("message", PDict [("content", PStr "a login form")])]])].

(** [json.loads] on the three bodies the examples use; the error text is
    the decoder's for a body that starts with no JSON value. *)
Definition loads (s : string) : string + pyval :=
  if String.eqb s rate_limited_text then inr rate_limited
  else if String.eqb s completion_text then inr completion
  else inl "Expecting value: line 1 column 1 (char 0)".

Definition format (v : pyval) : string :=
  match v with
  | PNone => "None"
  | PBool true => "True"
  | PBool false => "False"
  | PInt n => pretty n
  | _ => "<" +:+ type_name v +:+ ">"
  end.

(** A server that answers every request with the given status and body. *)
Definition answering (release : requests_release) (status : Z)
    (status_text body : string) : Library :=
  {| requests_post := fun r =>
       inr {| status_code := status; reason := status_text;
              resp_url := req_url r; text := body |};
     requests_version := release;
     json_loads := loads;
     format_value := format;
     multiple_values := fun f _ => f +:+ "() got multiple values" |}.

Definition client : CustomOpenAIClient.t :=
  {| CustomOpenAIClient.api_key := "sk-test";
     CustomOpenAIClient.base_url := "https://api.example.test" |}.

Definition messages : list pyval :=
  [PDict [("role", PStr "user"); ("content", PStr "hi")]].

(** Base64 with the standard alphabet and [=] padding. *)
Definition alphabet : string :=
  "ABCDEFGHIJKLMNOPQRSTUVWXYZabcdefghijklmnopqrstuvwxyz0123456789+/".

Definition sextet (n : N) : string :=
  match String.get (N.to_nat (n mod 64)%N) alphabet with
  | Some c => String c EmptyString
  | None => EmptyString
  end.

Fixpoint b64 (data : list byte) : string :=
  match data with
  | [] => EmptyString
  | [a] =>
      let n := (Byte.to_N a * 16)%N in
      sextet (n / 64) +:+ sextet n +:+ "=="
  | [a; b] =>
      let n := ((Byte.to_N a * 256 + Byte.to_N b) * 4)%N in
      sextet (n / 4096) +:+ sextet (n / 64) +:+ sextet n +:+ "="
  | a :: b :: c :: rest =>
      let n := ((Byte.to_N a * 256 + Byte.to_N b) * 256 + Byte.to_N c)%N in
      sextet (n / 262144) +:+ sextet (n / 4096) +:+ sextet (n / 64)
      +:+ sextet n +:+ b64 rest
  end.

(** A screenshot process that exits with the given code and, when the
    code is 0, writes the image; around it an interpreter without a limit
    on digits, asked to divide only ints beyond the doubles. *)
Definition camera (code : Z) (errors : string) (image : list byte) : System :=
  {| subprocess_run := fun _ _ fs =>
       (inr {| returncode := code; stdout := EmptyString; stderr := errors |},
        if code =? 0 then <[ "screenshot.jpg" := File image ]> fs else fs);
     b64encode := b64;
     wide_int_str := fun n => inr (pretty n);
     wide_int_div := fun _ _ =>
       inl (mk_exn OverflowError
              "integer division result too large for a float") |}.

(** A client that answers every request with the given text. *)
Definition answers (analysis : string) : completions_api :=
  fun _ _ _ _ =>
    inr {| ChatCompletion.choices :=
             [{| Choice.message :=
                   {| Message.content := PStr analysis;
                      Message.role := PStr "assistant" |};
                 Choice.index := PInt 0;
                 Choice.finish_reason := PStr "stop" |}];
           ChatCompletion.id_ := PNone; ChatCompletion.object := PNone;
           ChatCompletion.created := PNone; ChatCompletion.model := PNone;
           ChatCompletion.usage := PNone |}.

Definition empty_world : world :=
  {| files := ∅; console := []; spawned := [] |}.

(** A world that still holds the image of an earlier run. *)
Definition stale_world : world :=
  {| files := {[ "screenshot.jpg" := File ["o"%byte; "l"%byte; "d"%byte] ]};
     console := []; spawned := [] |}.

End Sample.

(** Further surroundings: bodies that are JSON but not what the client
    expects, a transport that fails, a process that writes nothing. *)

Module Fixture.

(** [{"choices": null}] *)
Definition null_choices_text : string :=
  "{" +:+ Sample.dq +:+ "choices" +:+ Sample.dq +:+ ": null}".

Definition loads (s : string) : string + pyval :=
  if String.eqb s "{}" then inr (PDict [])
  else if String.eqb s "[]" then inr (PList [])
  else if String.eqb s null_choices_text then inr (PDict [("choices", PNone)])
  else Sample.loads s.

Definition answering (status : Z) (status_text body : string) : Library :=
  {| requests_post := fun r =>
       inr {| status_code := status; reason := status_text;
              resp_url := req_url r; text := body |};
     requests_version := Since_2_27;
     json_loads := loads;
     format_value := Sample.format;
     multiple_values := fun f _ => f +:+ "() got multiple values" |}.

Definition refused : exn :=
  {| cls := RequestException; msg := "Connection refused";
     e_response := None |}.

Definition unreachable : Library :=
  {| requests_post := fun _ => inl refused;
     requests_version := Since_2_27;
     json_loads := loads;
     format_value := Sample.format;
     multiple_values := fun f _ => f +:+ "() got multiple values" |}.

Definition url : string := "https://api.example.test/v1/chat/completions".

(** A process that exits with 0 and writes nothing. *)
Definition idle_camera : System :=
  {| subprocess_run := fun _ _ fs =>
       (inr {| returncode := 0; stdout := EmptyString; stderr := EmptyString |},
        fs);
     b64encode := Sample.b64;
     wide_int_str := fun n => inr (pretty n);
     wide_int_div := fun _ _ =>
       inl (mk_exn OverflowError
              "integer division result too large for a float") |}.

(** A wait for the process that the interrupt key ends. *)
Definition interrupted_camera : System :=
  {| subprocess_run := fun _ _ fs => (inl KeyboardInterrupt, fs);
     b64encode := Sample.b64;
     wide_int_str := fun n => inr (pretty n);
     wide_int_div := fun _ _ =>
       inl (mk_exn OverflowError
              "integer division result too large for a float") |}.

(** The no-break space, U+00A0. *)
Definition nbsp : string := String "194" (String "160" EmptyString).

(** The letter U+00E9, two bytes of which neither is a blank. *)
Definition e_acute : string := String "195" (String "169" EmptyString).

Definition new_image : list byte := ["n"%byte; "e"%byte; "w"%byte].

Definition camera : System := Sample.camera 0 "" new_image.

Definition broken_camera : System := Sample.camera 1 "crashed" [].

Definition scraper : VisionScraper.t :=
  {| VisionScraper.client := Sample.answers "a login form" |}.

(** The one choice of the completions of [Sample.answers]. *)
Definition reply (analysis : string) : Choice.t :=
  {| Choice.message :=
       {| Message.content := PStr analysis;
          Message.role := PStr "assistant" |};
     Choice.index := PInt 0;
     Choice.finish_reason := PStr "stop" |}.

Definition no_choices : ChatCompletion.t :=
  {| ChatCompletion.choices := [];
     ChatCompletion.id_ := PNone; ChatCompletion.object := PNone;
     ChatCompletion.created := PNone; ChatCompletion.model := PNone;
     ChatCompletion.usage := PNone |}.

Definition silent_scraper : VisionScraper.t :=
  {| VisionScraper.client := fun _ _ _ _ => inr no_choices |}.

Definition with_image : world :=
  {| files := {[ "screenshot.jpg" := File new_image ]};
     console := []; spawned := [] |}.

Definition environ : gmap string string := {[ "OPENAI_API_KEY" := "sk-env" ]}.

Definition OpenAI (key : option string) : result completions_api :=
  inr (Sample.answers "a login form").

Definition tab : string := String "009" EmptyString.

End Fixture.

(** * Properties *)

(** ** Facts about strings *)

Lemma append_assoc (a b c : string) : (a +:+ b) +:+ c = a +:+ (b +:+ c).
Proof. induction a as [|x a IH]; simpl; [reflexivity | f_equal; exact IH]. Qed.

Lemma append_empty_r (a : string) : a +:+ "" = a.
Proof. induction a as [|x a IH]; simpl; [reflexivity | f_equal; exact IH]. Qed.

Lemma starts_with_spec (p s : string) :
  Str.starts_with p s = true <-> exists rest, s = p +:+ rest.
Proof.
  revert s. induction p as [|a p IH]; intros s; simpl.
  - split; [intros _; now exists s | reflexivity].
  - destruct s as [|b s].
    + split; [discriminate | intros [rest H]; discriminate].
    + rewrite andb_true_iff, IH. split.
      * intros [Hab [rest ->]]. apply Ascii.eqb_eq in Hab. subst b.
        now exists rest.
      * intros [rest H]. injection H as -> ->. split.
        -- apply Ascii.eqb_refl.
        -- now exists rest.
Qed.

Lemma containsb_spec (sub s : string) :
  Str.containsb sub s = true <-> Str.contains sub s.
Proof.
  unfold Str.contains. induction s as [|c s IH].
  - simpl. rewrite orb_false_r, starts_with_spec. split.
    + intros [rest H]. exists "", rest. exact H.
    + intros [pre [post H]]. destruct pre; simpl in H.
      * now exists post.
      * discriminate.
  - cbn [Str.containsb]. rewrite orb_true_iff, starts_with_spec, IH. split.
    + intros [[rest H] | [pre [post H]]].
      * exists "", rest. exact H.
      * exists (String c pre), post. simpl. now rewrite H.
    + intros [pre [post H]]. destruct pre as [|x pre]; simpl in H.
      * left. now exists post.
      * right. injection H as _ H. now exists pre, post.
Qed.

Lemma contains_middle (pre sub post : string) :
  Str.contains sub (pre +:+ sub +:+ post).
Proof. now exists pre, post. Qed.

Lemma contains_suffix (pre sub : string) : Str.contains sub (pre +:+ sub).
Proof. exists pre, "". now rewrite append_empty_r. Qed.

(** [rstrip] removes a suffix made of the given characters, and what it
    keeps does not end in one of them. *)
Lemma rstrip_spec (chars s : string) :
  (exists suffix,
      s = Str.rstrip chars s +:+ suffix /\ Str.all_in chars suffix = true) /\
  (forall c, Str.last_char (Str.rstrip chars s) = Some c ->
             Str.char_in c chars = false).
Proof.
  induction s as [|c rest [[suffix [Hs Hall]] Hlast]]; simpl.
  - split; [now exists "" | discriminate].
  - destruct (Str.rstrip chars rest) as [|a kept] eqn:E.
    + destruct (Str.char_in c chars) eqn:Hc.
      * split; [| discriminate].
        simpl in Hs. subst suffix.
        exists (String c rest). simpl. now rewrite Hc, Hall.
      * split.
        -- simpl in Hs. subst suffix. now exists rest.
        -- simpl. intros c' [= <-]. exact Hc.
    + split.
      * exists suffix. split; [simpl; f_equal; exact Hs | exact Hall].
      * intros c' H. apply Hlast. exact H.
Qed.

Lemma rstrip_idempotent (chars s : string) :
  Str.rstrip chars (Str.rstrip chars s) = Str.rstrip chars s.
Proof.
  induction s as [|c rest IH]; simpl; [reflexivity |].
  destruct (Str.rstrip chars rest) as [|a kept] eqn:E.
  - destruct (Str.char_in c chars) eqn:Hc; simpl; [reflexivity | now rewrite Hc].
  - remember (String a kept) as k eqn:Hk. simpl. rewrite IH. now subst k.
Qed.

Example rstrip_two_slashes :
  Str.rstrip "/" "https://host/a//" = "https://host/a".
Proof. reflexivity. Qed.

(** ** Construction of the client *)

Section Construction.

Import CustomOpenAIClient.

Lemma truthy_Some (k : string) : k <> "" -> truthy (Some k) = true.
Proof. destruct k; [congruence | reflexivity]. Qed.

Lemma init_with_key (environ : gmap string string) (api_key : option string)
    (base k : string) :
  k <> "" ->
  py_or api_key (environ !! "OPENAI_API_KEY") = Some k ->
  __init__ environ api_key base
  = ret {| api_key := k; base_url := Str.rstrip "/" base |}.
Proof.
  intros Hk Hor. unfold __init__. rewrite Hor.
  destruct k; [congruence | reflexivity].
Qed.

Lemma init_without_key (environ : gmap string string)
    (api_key : option string) (base : string) :
  truthy (py_or api_key (environ !! "OPENAI_API_KEY")) = false ->
  exists e, __init__ environ api_key base = raise e /\ cls e = ValueError.
Proof.
  intros H. unfold __init__.
  destruct (py_or api_key (environ !! "OPENAI_API_KEY")) as [[|c k]|];
    try discriminate; eexists; split; reflexivity.
Qed.

(** C3. A client built with no explicit credential while the environment
    variable is unset fails with the configuration error ([ValueError])
    and has called [requests.post] not once; with a non-empty credential,
    passed or found in the environment, construction returns the client
    holding that key and the base URL without its trailing slashes. *)
Theorem construction_requires_credential
    (environ : gmap string string) (api_key : option string) (base : string) :
  calls (__init__ environ api_key base) = [] /\
  (api_key = None -> environ !! "OPENAI_API_KEY" = None ->
   exists e, outcome (__init__ environ api_key base) = inl e /\
             cls e = ValueError) /\
  (forall k, k <> "" ->
     api_key = Some k \/
     (api_key = None /\ environ !! "OPENAI_API_KEY" = Some k) ->
     outcome (__init__ environ api_key base)
     = inr {| api_key := k; base_url := Str.rstrip "/" base |}) /\
  Str.last_char (Str.rstrip "/" base) <> Some "/"%char /\
  exists slashes, base = Str.rstrip "/" base +:+ slashes /\
                  Str.all_in "/" slashes = true.
Proof.
  split; [| split; [| split; [| split]]].
  - unfold __init__.
    now destruct (py_or api_key (environ !! "OPENAI_API_KEY")) as [[|c k]|].
  - intros -> Henv.
    destruct (init_without_key environ None base) as [e [He Hc]].
    + unfold py_or. simpl. now rewrite Henv.
    + exists e. now rewrite He.
  - intros k Hk H. rewrite (init_with_key environ api_key base k Hk); [reflexivity |].
    destruct H as [-> | [-> Henv]]; unfold py_or.
    + now rewrite truthy_Some.
    + exact Henv.
  - intros H. apply (proj2 (rstrip_spec "/" base)) in H. discriminate.
  - exact (proj1 (rstrip_spec "/" base)).
Qed.

Lemma construction_requires_credential_witness :
  (exists e, outcome (__init__ ∅ None "https://host/") = inl e /\
             cls e = ValueError) /\
  outcome (__init__ {[ "OPENAI_API_KEY" := "sk-env" ]} None "https://host/")
  = inr {| api_key := "sk-env"; base_url := "https://host" |}.
Proof.
  split.
  - apply (construction_requires_credential ∅ None "https://host/");
      reflexivity.
  - apply (construction_requires_credential
             {[ "OPENAI_API_KEY" := "sk-env" ]} None "https://host/" );
      [discriminate | right; split; reflexivity].
Defined.

(** C10. An explicit [api_key] equal to the empty string counts as no key:
    construction goes to the environment variable as it does for an
    omitted key, and raises the same configuration error when the variable
    is unset or empty. *)
Theorem empty_key_is_no_key
    (environ : gmap string string) (base : string) :
  __init__ environ (Some "") base = __init__ environ None base /\
  (forall k, k <> "" -> environ !! "OPENAI_API_KEY" = Some k ->
     outcome (__init__ environ (Some "") base)
     = inr {| api_key := k; base_url := Str.rstrip "/" base |}) /\
  (environ !! "OPENAI_API_KEY" = None \/
   environ !! "OPENAI_API_KEY" = Some "" ->
   calls (__init__ environ (Some "") base) = [] /\
   exists e, outcome (__init__ environ (Some "") base) = inl e /\
             cls e = ValueError /\
             outcome (__init__ environ None base) = inl e).
Proof.
  split; [reflexivity | split].
  - intros k Hk Henv. now rewrite (init_with_key environ (Some "") base k Hk).
  - intros H.
    destruct (init_without_key environ (Some "") base) as [e [He Hc]].
    + unfold py_or. simpl. now destruct H as [-> | ->].
    + split; [now rewrite He |]. exists e.
      change (__init__ environ None base) with (__init__ environ (Some "") base).
      now rewrite He.
Qed.

Lemma empty_key_is_no_key_witness :
  outcome (__init__ {[ "OPENAI_API_KEY" := "sk-env" ]} (Some "") "https://host")
  = inr {| api_key := "sk-env"; base_url := "https://host" |} /\
  exists e, outcome (__init__ {[ "OPENAI_API_KEY" := "" ]} (Some "") "https://host")
            = inl e /\ cls e = ValueError.
Proof.
  split.
  - apply (empty_key_is_no_key {[ "OPENAI_API_KEY" := "sk-env" ]} "https://host");
      [discriminate | reflexivity].
  - destruct (proj2 (proj2 (empty_key_is_no_key
                              {[ "OPENAI_API_KEY" := "" ]} "https://host")))
      as [_ [e [He [Hc _]]]].
    + right. reflexivity.
    + exists e. split; assumption.
Defined.

End Construction.

(** ** Decoding a response *)

Lemma py_get_dict (d : list (string * pyval)) (k : string) :
  py_get (PDict d) k PNone = inr (field k d).
Proof. reflexivity. Qed.

Lemma field_absent (k : string) (d : list (string * pyval)) :
  assoc k d = None -> field k d = PNone.
Proof. unfold field. now intros ->. Qed.

Lemma field_present (k : string) (d : list (string * pyval)) (v : pyval) :
  assoc k d = Some v -> field k d = v.
Proof. unfold field. now intros ->. Qed.

Lemma Message_init_dict (md : list (string * pyval)) :
  Message.__init__ (PDict md)
  = inr {| Message.content := field "content" md;
           Message.role := field "role" md |}.
Proof. reflexivity. Qed.

Lemma Message_init_unset (md : list (string * pyval)) :
  exists m, Message.__init__ (PDict md) = inr m /\ message_unset md m.
Proof.
  eexists. split; [apply Message_init_dict |].
  split; simpl; apply field_absent.
Qed.

Lemma Choice_init_shape (raw : pyval) :
  choice_shape raw = true ->
  exists c, Choice.__init__ raw = inr c /\ choice_unset raw c /\
            forall cd md, raw = PDict cd ->
                          assoc "message" cd = Some (PDict md) ->
                          Message.content (Choice.message c) = field "content" md.
Proof.
  destruct raw as [| | | | | |cd]; try discriminate. simpl. intros Hshape.
  unfold Choice.__init__, py_get.
  destruct (assoc "message" cd) as [mv|] eqn:Hm; simpl.
  - destruct mv as [| | | | | |md]; try discriminate. simpl.
    eexists. split; [reflexivity |]. split.
    + exists cd. rewrite Hm. simpl.
      split; [reflexivity |]. split; [apply field_absent |].
      split; [apply field_absent |]. split; [discriminate |].
      intros md' [= <-]. split; simpl; apply field_absent.
    + intros cd' md' [= <-]. rewrite Hm. now intros [= <-].
  - eexists. split; [reflexivity |]. split.
    + exists cd. rewrite Hm. simpl.
      split; [reflexivity |]. split; [apply field_absent |].
      split; [apply field_absent |]. split; [reflexivity | discriminate].
    + intros cd' md' [= <-]. rewrite Hm. discriminate.
Qed.

Lemma choices_decode (l : list pyval) :
  forallb choice_shape l = true ->
  exists cs, rmap Choice.__init__ l = inr cs /\ Forall2 choice_unset l cs.
Proof.
  induction l as [|raw l IH]; simpl.
  - intros _. exists []. split; [reflexivity | constructor].
  - rewrite andb_true_iff. intros [Hraw Hl].
    destruct (Choice_init_shape raw Hraw) as [c [Hc [Hu _]]].
    destruct (IH Hl) as [cs [Hcs Hall]].
    exists (c :: cs). rewrite Hc. simpl. rewrite Hcs. simpl.
    split; [reflexivity | now constructor].
Qed.

Lemma schema_gives_shape (v : pyval) :
  response_schema v = true -> exists d, v = PDict d /\ response_shape d = true.
Proof.
  destruct v as [| | | | | |d]; try discriminate. simpl. intros H.
  exists d. split; [reflexivity |].
  apply andb_true_iff in H as [_ H]. unfold response_shape.
  destruct (assoc "choices" d) as [[| | | | |l|]|]; simpl in *;
    try discriminate; try reflexivity.
  induction l as [|raw l IH]; simpl in *; [reflexivity |].
  apply andb_true_iff in H as [Hraw Hl]. rewrite (IH Hl), andb_true_r.
  destruct raw as [| | | | | |cd]; try discriminate. simpl in *.
  apply andb_true_iff in Hraw as [_ Hm].
  destruct (assoc "message" cd) as [[| | | | | |md]|]; simpl in *;
    try discriminate; reflexivity.
Qed.

(** C9, in the form the code satisfies. Decoding is total on a response
    object whose present containers have their type, whichever keys are
    missing: a missing ["choices"] gives the empty list, a missing [id],
    [object], [created], [model] or [usage] gives [None], and in every
    choice a missing [index], [finish_reason], [role] or [content] gives
    [None] and a missing [message] a message object whose two fields are
    [None]. *)
Theorem decode_defaults_missing_keys (d : list (string * pyval)) :
  response_shape d = true ->
  exists c,
    ChatCompletion.__init__ (PDict d) = inr c /\
    (assoc "choices" d = None -> ChatCompletion.choices c = []) /\
    (assoc "id" d = None -> ChatCompletion.id_ c = PNone) /\
    (assoc "object" d = None -> ChatCompletion.object c = PNone) /\
    (assoc "created" d = None -> ChatCompletion.created c = PNone) /\
    (assoc "model" d = None -> ChatCompletion.model c = PNone) /\
    (assoc "usage" d = None -> ChatCompletion.usage c = PNone) /\
    Forall2 choice_unset (raw_choices d) (ChatCompletion.choices c).
Proof.
  unfold response_shape, raw_choices. intros Hshape.
  unfold ChatCompletion.__init__, py_get.
  destruct (assoc "choices" d) as [raw|] eqn:Hch; simpl in *.
  - destruct raw as [| | | | |l|]; try discriminate. simpl in *.
    destruct (choices_decode l Hshape) as [cs [Hcs Hall]].
    rewrite Hcs. simpl. eexists. split; [reflexivity |]. simpl.
    repeat split; try discriminate; try (intros ->; reflexivity).
    exact Hall.
  - eexists. split; [reflexivity |]. simpl.
    repeat split; try (intros ->; reflexivity). constructor.
Qed.

Lemma decode_defaults_missing_keys_witness :
  ChatCompletion.__init__ (PDict [("choices", PList [PDict []])])
  = inr {| ChatCompletion.choices :=
             [{| Choice.message :=
                   {| Message.content := PNone; Message.role := PNone |};
                 Choice.index := PNone; Choice.finish_reason := PNone |}];
           ChatCompletion.id_ := PNone; ChatCompletion.object := PNone;
           ChatCompletion.created := PNone; ChatCompletion.model := PNone;
           ChatCompletion.usage := PNone |} /\
  exists c, ChatCompletion.__init__ (PDict []) = inr c /\
            ChatCompletion.choices c = [] /\ ChatCompletion.id_ c = PNone.
Proof.
  split; [reflexivity |].
  destruct (decode_defaults_missing_keys [] eq_refl)
    as [c [Hc [Hch [Hid _]]]].
  exists c. split; [exact Hc |]. split; [apply Hch | apply Hid]; reflexivity.
Defined.

(** C9, as stated, fails for the key ["message"]: decoded from a choice
    without it, the attribute is a message object, not [None]. *)
Lemma missing_message_is_an_object : ~ missing_reads_None [] "message".
Proof.
  intros H. destruct (H eq_refl) as [c [Hc Ha]].
  injection Hc as <-. discriminate Ha.
Qed.

Example missing_index_reads_None :
  missing_reads_None [] "index" /\ missing_reads_None [] "finish_reason".
Proof. split; intros _; eexists; split; reflexivity. Qed.

(** The first choice of a decoded body keeps the body's content. *)
Lemma decode_first_content (body v : pyval) :
  response_schema body = true ->
  first_content body = Some v ->
  exists c ch chs,
    ChatCompletion.__init__ body = inr c /\
    ChatCompletion.choices c = ch :: chs /\
    Message.content (Choice.message ch) = v.
Proof.
  intros Hschema Hfirst.
  destruct (schema_gives_shape body Hschema) as [d [-> Hshape]].
  unfold first_content in Hfirst. unfold response_shape in Hshape.
  destruct (assoc "choices" d) as [[| | | | |[|raw l]|]|] eqn:Hch;
    try discriminate.
  destruct raw as [| | | | | |cd]; try discriminate.
  destruct (assoc "message" cd) as [[| | | | | |md]|] eqn:Hm; try discriminate.
  simpl in Hshape. rewrite Hm in Hshape. simpl in Hshape.
  destruct (choices_decode l Hshape) as [cs [Hcs _]].
  unfold ChatCompletion.__init__, py_get. rewrite Hch. simpl.
  destruct (Choice_init_shape (PDict cd)) as [c0 [Hc0 [_ Hcontent]]];
    [simpl; now rewrite Hm |].
  rewrite Hc0. simpl. rewrite Hcs. simpl.
  eexists _, _, _. split; [reflexivity |]. split; [reflexivity |].
  rewrite (Hcontent cd md eq_refl Hm). now apply field_present.
Qed.

(** ** The request *)

Lemma bind_kwargs_ok (lib : Library) (fname : string)
    (extra : gmap string pyval) :
  extra_is_extra extra -> bind_kwargs lib fname extra = inr extra.
Proof.
  intros H. unfold bind_kwargs.
  destruct (List.find _ named_parameters) as [k|] eqn:Hfind; [| reflexivity].
  apply List.find_some in Hfind as [Hin Hk].
  apply bool_decide_eq_true_1 in Hk. apply list_elem_of_In in Hin.
  rewrite (H k Hin) in Hk. now destruct Hk.
Qed.

Lemma bind_kwargs_clash (lib : Library) (fname k : string)
    (extra : gmap string pyval) :
  k ∈ named_parameters -> is_Some (extra !! k) ->
  exists e, bind_kwargs lib fname extra = inl e /\ cls e = TypeError.
Proof.
  intros Hin Hk. unfold bind_kwargs.
  destruct (List.find _ named_parameters) as [k'|] eqn:Hfind.
  - eexists. split; reflexivity.
  - apply list_elem_of_In in Hin.
    pose proof (List.find_none _ _ Hfind k Hin) as Hno. simpl in Hno.
    apply bool_decide_eq_false_1 in Hno. contradiction.
Qed.

(** The dict literal of the body: [**kwargs] is written last, so it wins
    over a named entry of the same key. *)
Lemma payload_lookup (model : string) (messages : list pyval) (max_tokens : Z)
    (temperature : float) (kwargs : gmap string pyval) (k : string) :
  CustomOpenAIClient.payload model messages max_tokens temperature kwargs !! k
  = match kwargs !! k with
    | Some v => Some v
    | None => named_entry model messages max_tokens temperature k
    end.
Proof.
  unfold CustomOpenAIClient.payload. rewrite lookup_union.
  assert (Hnamed :
    ({[ "model" := PStr model; "messages" := PList messages;
        "max_tokens" := PInt max_tokens;
        "temperature" := PFloat temperature ]} : gmap string pyval) !! k
    = named_entry model messages max_tokens temperature k).
  { unfold named_entry.
    repeat (rewrite lookup_insert; case_decide as Hk;
            [subst k; reflexivity |
             apply not_eq_sym, String.eqb_neq in Hk; rewrite Hk; clear Hk]).
    rewrite lookup_singleton. case_decide as Hk.
    - subst k. reflexivity.
    - apply not_eq_sym, String.eqb_neq in Hk. now rewrite Hk. }
  rewrite Hnamed.
  destruct (kwargs !! k) as [v|]; simpl.
  - now destruct (named_entry _ _ _ _ k).
  - now destruct (named_entry _ _ _ _ k).
Qed.

Section Exchange.

Context (lib : Library) (self : CustomOpenAIClient.t).
Context (model : string) (messages : list pyval).
Context (max_tokens : Z) (temperature : float).
Context (extra : gmap string pyval).

Let call : M ChatCompletion.t :=
  client_create lib self model messages max_tokens temperature extra.
Let request : http_request :=
  sent_request self model messages max_tokens temperature extra.

Lemma handler_silent {A} (e : exn) :
  calls (@CustomOpenAIClient.handler lib A e) = [].
Proof.
  unfold CustomOpenAIClient.handler.
  destruct (is_RequestException (cls e)); [reflexivity |].
  now destruct (is_JSONDecodeError (cls e)).
Qed.

Lemma create_run :
  extra_is_extra extra ->
  call
  = ([request],
     match requests_post lib request with
     | inl e => handled lib e
     | inr response =>
         match raise_for_status response with
         | inl e => handled lib e
         | inr _ =>
             match response_json lib response with
             | inl e => handled lib e
             | inr response_data =>
                 match ChatCompletion.__init__ response_data with
                 | inl e => handled lib e
                 | inr completion => inr completion
                 end
             end
         end
     end).
Proof.
  intros Hextra. subst call request.
  unfold client_create, ChatCompletions.create, chat, Chat.__init__. simpl.
  rewrite (bind_kwargs_ok lib "create" extra Hextra). simpl.
  unfold CustomOpenAIClient._make_chat_request.
  rewrite (bind_kwargs_ok lib "_make_chat_request" extra Hextra). simpl.
  unfold post, sent_request, handled. simpl.
  pose proof (@handler_silent ChatCompletion.t) as Hs.
  destruct (requests_post lib _) as [e|response]; simpl.
  { specialize (Hs e). destruct (CustomOpenAIClient.handler lib e) as [t r].
    simpl in *. now subst t. }
  destruct (raise_for_status response) as [e|[]]; simpl.
  { specialize (Hs e). destruct (CustomOpenAIClient.handler lib e) as [t r].
    simpl in *. now subst t. }
  destruct (response_json lib response) as [e|response_data]; simpl.
  { specialize (Hs e). destruct (CustomOpenAIClient.handler lib e) as [t r].
    simpl in *. now subst t. }
  destruct (ChatCompletion.__init__ response_data) as [e|completion]; simpl.
  { specialize (Hs e). destruct (CustomOpenAIClient.handler lib e) as [t r].
    simpl in *. now subst t. }
  reflexivity.
Qed.

Lemma create_clash (k : string) :
  k ∈ named_parameters -> is_Some (extra !! k) ->
  calls call = [] /\ exists e, outcome call = inl e /\ cls e = TypeError.
Proof.
  intros Hin Hk. subst call.
  destruct (bind_kwargs_clash lib "create" k extra Hin Hk) as [e [He Hc]].
  unfold client_create, ChatCompletions.create. rewrite He. simpl.
  split; [reflexivity |]. now exists e.
Qed.

End Exchange.

(** ** The exchange *)

Section Create.

Context (lib : Library) (self : CustomOpenAIClient.t).
Context (model : string) (messages : list pyval).
Context (max_tokens : Z) (temperature : float).
Context (extra : gmap string pyval).

Let call : M ChatCompletion.t :=
  client_create lib self model messages max_tokens temperature extra.
Let request : http_request :=
  sent_request self model messages max_tokens temperature extra.

(** C1, in the form the code satisfies. A call whose extra keywords name
    none of [self], [model], [messages], [max_tokens], [temperature] makes
    exactly one call of [requests.post]: to the base URL followed by
    [/v1/chat/completions], with the client's headers, a timeout of 60 and
    a body that holds the four named fields and the extra parameters.  A
    call whose extra keywords repeat one of the five parameter names is
    refused when its arguments are bound: it raises [TypeError] and posts
    nothing. *)
Theorem create_posts_once :
  (extra_is_extra extra ->
   calls call = [request] /\
   one_merged_post lib self model messages max_tokens temperature extra) /\
  (forall k,
     k ∈ ["self"; "model"; "messages"; "max_tokens"; "temperature"] ->
     is_Some (extra !! k) ->
     calls call = [] /\ exists e, outcome call = inl e /\ cls e = TypeError).
Proof.
  split.
  - intros Hextra.
    pose proof (create_run lib self model messages max_tokens temperature
                  extra Hextra) as Hrun.
    assert (Hcalls : calls call = [request]) by (subst call; now rewrite Hrun).
    split; [exact Hcalls |].
    exists request. split; [exact Hcalls |]. split; [reflexivity |].
    intros k. apply payload_lookup.
  - intros k. apply create_clash.
Qed.

(** C2. When the server answers with a 2xx status and a body that decodes
    to a value of the documented schema, [create] returns a completion
    whose [choices[0].message.content] is the content string of the first
    choice of the body. *)
Theorem create_returns_body_content
    (response : http_response) (body : pyval) (content : string) :
  extra_is_extra extra ->
  requests_post lib request = inr response ->
  is_2xx response ->
  json_loads lib (text response) = inr body ->
  response_schema body = true ->
  first_content body = Some (PStr content) ->
  returns_first_content lib self model messages max_tokens temperature extra
    content.
Proof.
  intros Hextra Hpost [Hlo Hhi] Hjson Hschema Hfirst.
  destruct (decode_first_content body (PStr content) Hschema Hfirst)
    as [c [ch [chs [Hc [Hchs Hcontent]]]]].
  exists c, ch, chs. split; [| split; assumption].
  rewrite (create_run lib self model messages max_tokens temperature extra Hextra).
  unfold outcome. simpl. subst request. rewrite Hpost.
  unfold raise_for_status.
  replace (400 <=? status_code response) with false by (symmetry; lia).
  replace (500 <=? status_code response) with false by (symmetry; lia).
  simpl. unfold response_json. now rewrite Hjson, Hc.
Qed.

Lemma raise_for_status_error (response : http_response) :
  is_4xx_5xx response ->
  exists e, raise_for_status response = inl e /\
            cls e = HTTPError /\ e_response e = Some response.
Proof.
  intros [Hlo Hhi]. unfold raise_for_status.
  destruct (status_code response <? 500) eqn:H5.
  - replace (400 <=? status_code response) with true by (symmetry; lia).
    simpl. eexists. repeat split.
  - replace (500 <=? status_code response) with true by (symmetry; lia).
    replace (status_code response <? 600) with true by (symmetry; lia).
    rewrite andb_false_r. simpl. eexists. repeat split.
Qed.

(** C5, in the form the code satisfies. When the server answers with a
    status in 400..599 and a body that decodes to an object whose
    ["error"] is an object with a string ["message"], [create] raises an
    error whose message is ["API request failed: "] followed by that
    string. *)
Theorem error_body_message_surfaced
    (response : http_response) (d err : list (string * pyval)) (m : string) :
  extra_is_extra extra ->
  requests_post lib request = inr response ->
  is_4xx_5xx response ->
  json_loads lib (text response) = inr (PDict d) ->
  assoc "error" d = Some (PDict err) ->
  assoc "message" err = Some (PStr m) ->
  exists e,
    outcome call = inl e /\
    msg e = "API request failed: " +:+ m /\
    Str.contains m (msg e).
Proof.
  intros Hextra Hpost Hstatus Hjson Herr Hm.
  destruct (raise_for_status_error response Hstatus) as [e [He [Hcls Hresp]]].
  subst call.
  rewrite (create_run lib self model messages max_tokens temperature extra Hextra).
  unfold outcome. simpl. subst request. rewrite Hpost, He.
  unfold handled, CustomOpenAIClient.handler. rewrite Hcls. simpl.
  unfold CustomOpenAIClient.error_message. rewrite Hresp.
  unfold response_json. rewrite Hjson. simpl. rewrite Herr. simpl.
  rewrite Hm. simpl.
  eexists. split; [reflexivity |]. split; [reflexivity |].
  change (Str.contains m ("API request failed: " +:+ m)).
  apply contains_suffix.
Qed.

(** C6, in the form the code satisfies. When the server answers with a
    status in 400..599 and a body that is not JSON, [create] raises an
    error whose message is ["API request failed: HTTP "], the status
    code, [": "] and the body as received. *)
Theorem status_and_body_surfaced
    (response : http_response) (decoder_error : string) :
  extra_is_extra extra ->
  requests_post lib request = inr response ->
  is_4xx_5xx response ->
  json_loads lib (text response) = inl decoder_error ->
  exists e,
    outcome call = inl e /\
    msg e = "API request failed: HTTP " +:+ pretty (status_code response)
            +:+ ": " +:+ text response /\
    Str.contains (pretty (status_code response)) (msg e) /\
    Str.contains (text response) (msg e).
Proof.
  intros Hextra Hpost Hstatus Hjson.
  destruct (raise_for_status_error response Hstatus) as [e [He [Hcls Hresp]]].
  subst call.
  rewrite (create_run lib self model messages max_tokens temperature extra Hextra).
  unfold outcome. simpl. subst request. rewrite Hpost, He.
  unfold handled, CustomOpenAIClient.handler. rewrite Hcls. simpl.
  unfold CustomOpenAIClient.error_message. rewrite Hresp.
  unfold response_json. rewrite Hjson. simpl.
  eexists. split; [reflexivity |]. split; [reflexivity |]. split.
  - exists "API request failed: HTTP ", (": " +:+ text response). reflexivity.
  - exists ("API request failed: HTTP " +:+ pretty (status_code response) +:+ ": "), "".
    rewrite append_empty_r, !append_assoc. reflexivity.
Qed.

(** A 2xx body that is not JSON, by release of [requests]. *)
Lemma decode_failure_message (response : http_response) (decoder_error : string) :
  extra_is_extra extra ->
  requests_post lib request = inr response ->
  is_2xx response ->
  json_loads lib (text response) = inl decoder_error ->
  exists e,
    outcome call = inl e /\
    msg e = match requests_version lib with
            | Since_2_27 => "API request failed: " +:+ decoder_error
            | Before_2_27 => "Failed to parse API response: " +:+ decoder_error
            end.
Proof.
  intros Hextra Hpost [Hlo Hhi] Hjson. subst call.
  rewrite (create_run lib self model messages max_tokens temperature extra Hextra).
  unfold outcome. simpl. subst request. rewrite Hpost.
  unfold raise_for_status.
  replace (400 <=? status_code response) with false by (symmetry; lia).
  replace (500 <=? status_code response) with false by (symmetry; lia).
  simpl. unfold response_json. rewrite Hjson.
  unfold handled, CustomOpenAIClient.handler.
  destruct (requests_version lib); simpl; eexists; split; reflexivity.
Qed.

End Create.

(** ** The exchange on sample servers *)

Lemma extra_is_extra_check (extra : gmap string pyval) :
  forallb (fun k => negb (bool_decide (is_Some (extra !! k)))) named_parameters
  = true ->
  extra_is_extra extra.
Proof.
  intros H k Hk. rewrite forallb_forall in H.
  apply list_elem_of_In in Hk. specialize (H k Hk).
  apply negb_true_iff, bool_decide_eq_false_1 in H.
  destruct (extra !! k); [destruct H; eauto | reflexivity].
Qed.

Lemma create_posts_once_witness :
  one_merged_post (Sample.answering Since_2_27 200 "OK" Sample.completion_text)
    Sample.client "gpt-4o" Sample.messages 1000 0.1%float
    {[ "top_p" := PFloat 0.9%float ]} /\
  calls (client_create
           (Sample.answering Since_2_27 200 "OK" Sample.completion_text)
           Sample.client "gpt-4o" Sample.messages 1000 0.1%float
           {[ "model" := PStr "other" ]}) = [].
Proof.
  split.
  - apply (create_posts_once
             (Sample.answering Since_2_27 200 "OK" Sample.completion_text)
             Sample.client "gpt-4o" Sample.messages 1000 0.1%float
             {[ "top_p" := PFloat 0.9%float ]}).
    apply extra_is_extra_check. vm_compute. reflexivity.
  - apply (proj2 (create_posts_once
             (Sample.answering Since_2_27 200 "OK" Sample.completion_text)
             Sample.client "gpt-4o" Sample.messages 1000 0.1%float
             {[ "model" := PStr "other" ]}) "model").
    + apply list_elem_of_In. simpl. tauto.
    + vm_compute. eauto.
Defined.

(** C1, as stated, fails on a call that passes ["model"] a second time
    among its extra keywords: nothing is posted, so no body carries the
    overriding value. *)
Lemma colliding_keyword_posts_nothing :
  ~ one_merged_post (Sample.answering Since_2_27 200 "OK" Sample.completion_text)
      Sample.client "gpt-4o" Sample.messages 1000 0.1%float
      {[ "model" := PStr "other" ]}.
Proof.
  intros [req [Hcalls _]]. vm_compute in Hcalls. discriminate.
Qed.

(** Nor is anything posted when the extra keywords name [self], which
    the bound method has filled already. *)
Example self_keyword_posts_nothing :
  let call :=
    client_create (Sample.answering Since_2_27 200 "OK" Sample.completion_text)
      Sample.client "gpt-4o" Sample.messages 1000 0.1%float
      {[ "self" := PInt 1 ]} in
  calls call = [] /\ exists e, outcome call = inl e /\ cls e = TypeError.
Proof. split; [reflexivity |]. eexists. split; reflexivity. Qed.

Lemma create_returns_body_content_witness :
  returns_first_content
    (Sample.answering Since_2_27 200 "OK" Sample.completion_text)
    Sample.client "gpt-4o" Sample.messages 1000 0.1%float ∅ "a login form".
Proof.
  apply (create_returns_body_content
           (Sample.answering Since_2_27 200 "OK" Sample.completion_text)
           Sample.client "gpt-4o" Sample.messages 1000 0.1%float ∅
           {| status_code := 200; reason := "OK";
              resp_url := "https://api.example.test/v1/chat/completions";
              text := Sample.completion_text |}
           Sample.completion "a login form").
  - apply extra_is_extra_check. vm_compute. reflexivity.
  - reflexivity.
  - unfold is_2xx. simpl. lia.
  - vm_compute. reflexivity.
  - reflexivity.
  - reflexivity.
Defined.

Lemma error_body_message_surfaced_witness :
  exists e,
    outcome (client_create
               (Sample.answering Since_2_27 429 "Too Many Requests"
                  Sample.rate_limited_text)
               Sample.client "gpt-4o" Sample.messages 1000 0.1%float ∅)
    = inl e /\
    msg e = "API request failed: rate limited" /\
    Str.contains "rate limited" (msg e).
Proof.
  apply (error_body_message_surfaced
           (Sample.answering Since_2_27 429 "Too Many Requests"
              Sample.rate_limited_text)
           Sample.client "gpt-4o" Sample.messages 1000 0.1%float ∅
           {| status_code := 429; reason := "Too Many Requests";
              resp_url := "https://api.example.test/v1/chat/completions";
              text := Sample.rate_limited_text |}
           [("error", PDict [("message", PStr "rate limited")])]
           [("message", PStr "rate limited")] "rate limited").
  - apply extra_is_extra_check. vm_compute. reflexivity.
  - reflexivity.
  - unfold is_4xx_5xx. simpl. lia.
  - vm_compute. reflexivity.
  - reflexivity.
  - reflexivity.
Defined.

(** C5, as stated, fails on a 300: [raise_for_status] lets the response
    through, the body decodes, and a completion without choices is
    returned instead of an error. *)
Lemma error_body_of_300_is_returned :
  ~ surfaces_error_message
      (Sample.answering Since_2_27 300 "Multiple Choices" Sample.rate_limited_text)
      Sample.client "gpt-4o" Sample.messages 1000 0.1%float ∅.
Proof.
  intros H.
  destruct (H {| status_code := 300; reason := "Multiple Choices";
                 resp_url := "https://api.example.test/v1/chat/completions";
                 text := Sample.rate_limited_text |} "rate limited")
    as [e [He _]].
  - reflexivity.
  - unfold is_2xx. simpl. lia.
  - vm_compute. reflexivity.
  - vm_compute in He. discriminate.
Qed.

Lemma status_and_body_surfaced_witness :
  exists e,
    outcome (client_create
               (Sample.answering Since_2_27 502 "Bad Gateway" "upstream down")
               Sample.client "gpt-4o" Sample.messages 1000 0.1%float ∅)
    = inl e /\
    msg e = "API request failed: HTTP 502: upstream down".
Proof.
  destruct (status_and_body_surfaced
           (Sample.answering Since_2_27 502 "Bad Gateway" "upstream down")
           Sample.client "gpt-4o" Sample.messages 1000 0.1%float ∅
           {| status_code := 502; reason := "Bad Gateway";
              resp_url := "https://api.example.test/v1/chat/completions";
              text := "upstream down" |}
           "Expecting value: line 1 column 1 (char 0)")
    as [e [He [Hmsg _]]].
  - apply extra_is_extra_check. vm_compute. reflexivity.
  - reflexivity.
  - unfold is_4xx_5xx. simpl. lia.
  - vm_compute. reflexivity.
  - exists e. split; [exact He |]. rewrite Hmsg. vm_compute. reflexivity.
Defined.

(** C6, as stated, fails on a 300 with a body that is not JSON: the error
    raised carries the decoder's text, and neither the status code nor
    the body, under either release of [requests]. *)
Lemma status_of_300_is_not_reported :
  ~ surfaces_status_and_body
      (Sample.answering Since_2_27 300 "Multiple Choices" "upstream down")
      Sample.client "gpt-4o" Sample.messages 1000 0.1%float ∅ /\
  ~ surfaces_status_and_body
      (Sample.answering Before_2_27 300 "Multiple Choices" "upstream down")
      Sample.client "gpt-4o" Sample.messages 1000 0.1%float ∅.
Proof.
  split; intros H;
    destruct (H {| status_code := 300; reason := "Multiple Choices";
                   resp_url := "https://api.example.test/v1/chat/completions";
                   text := "upstream down" |}
                "Expecting value: line 1 column 1 (char 0)")
      as [e [He [Hstatus _]]];
    try reflexivity; try (unfold is_2xx; simpl; lia).
  all: vm_compute in He; injection He as <-.
  all: apply containsb_spec in Hstatus; vm_compute in Hstatus; discriminate.
Qed.

(** C4 at its failing input. With [requests] 2.27 or later, a 200 whose
    body is not JSON raises the message of a transport failure:
    [Response.json()] raises a [RequestException], which the first
    [except] clause takes before the clause for [json.JSONDecodeError]. *)
Theorem decode_failure_reported_as_transport_failure :
  exists e,
    outcome (client_create
               (Sample.answering Since_2_27 200 "OK" "<html>gateway</html>")
               Sample.client "gpt-4o" Sample.messages 1000 0.1%float ∅)
    = inl e /\
    msg e = "API request failed: Expecting value: line 1 column 1 (char 0)" /\
    transport_shape (msg e) = true.
Proof.
  eexists. split; [vm_compute; reflexivity |]. split; reflexivity.
Qed.

(** Before release 2.27 the same exchange raised the parse failure. *)
Example decode_failure_before_2_27 :
  exists e,
    outcome (client_create
               (Sample.answering Before_2_27 200 "OK" "<html>gateway</html>")
               Sample.client "gpt-4o" Sample.messages 1000 0.1%float ∅)
    = inl e /\
    msg e = "Failed to parse API response: Expecting value: line 1 column 1 (char 0)" /\
    transport_shape (msg e) = false.
Proof.
  eexists. split; [vm_compute; reflexivity |]. split; reflexivity.
Qed.

(** ** The workflow *)

Section Workflow.

Import VisionScraper.

Context (sys : System) (self : VisionScraper.t).

(** What one call of the screenshot step does to the world. *)
Lemma take_screenshot_run (url : string) (timeout : Z) (w : world) :
  match files w !! screenshot_path with
  | Some Dir =>
      exists e, take_screenshot sys self url timeout w = (inl (Err e), w) /\
                cls e = OSError
  | _ =>
      let '(r, w') := take_screenshot sys self url timeout w in
      match screenshot_call sys timeout with
      | inl e =>
          r = inl (Err (screenshot_error e)) /\
          files w' = delete screenshot_path (files w) /\
          spawned w' = spawned w
      | inr (text, limit) =>
          let '(ran, after) :=
            subprocess_run sys (screenshot_args url text) limit
              (delete screenshot_path (files w)) in
          files w' = after /\
          spawned w' = spawned w ++ [clean_start url text limit w] /\
          r = match ran with
              | inl (Err e) => inl (Err (screenshot_error e))
              | inl KeyboardInterrupt => inl KeyboardInterrupt
              | inr p =>
                  if returncode p =? 0 then inr screenshot_path
                  else inl (Err (mk_exn Exception_
                                   ("Error taking screenshot: Screenshot script failed: "
                                    +:+ stderr p)))
              end
      end
  end.
Proof.
  unfold take_screenshot, bind, try_except, os_path_exists, os_remove, run,
    print, ret, raise, lift, clean_start, screenshot_args, screenshot_error.
  destruct (files w !! screenshot_path) as [[data|]|] eqn:Hfile; simpl.
  - rewrite Hfile. simpl.
    destruct (screenshot_call sys timeout) as [e|[text limit]]; simpl.
    { destruct (is_TimeoutExpired (cls e)); simpl; repeat split. }
    destruct (subprocess_run sys _ _ _) as [[[e|]|p] after]; simpl.
    + destruct (is_TimeoutExpired (cls e)); simpl; repeat split.
    + repeat split.
    + destruct (returncode p =? 0); simpl; repeat split.
  - rewrite Hfile. eexists. split; reflexivity.
  - rewrite (delete_id _ _ Hfile).
    destruct (screenshot_call sys timeout) as [e|[text limit]]; simpl.
    { destruct (is_TimeoutExpired (cls e)); simpl; repeat split. }
    destruct (subprocess_run sys _ _ _) as [[[e|]|p] after]; simpl.
    + destruct (is_TimeoutExpired (cls e)); simpl; repeat split.
    + repeat split.
    + destruct (returncode p =? 0); simpl; repeat split.
Qed.

Lemma take_screenshot_started (url : string) (timeout : Z) (w : world) :
  let run := take_screenshot sys self url timeout w in
  exists started,
    spawned (snd run) = spawned w ++ started /\
    Forall started_clean started /\
    (forall p, fst run = inr p ->
       p = screenshot_path /\
       exists text limit,
         screenshot_call sys timeout = inr (text, limit) /\
         started = [clean_start url text limit w] /\
         files (snd run)
         = snd (subprocess_run sys (screenshot_args url text) limit
                  (delete screenshot_path (files w)))).
Proof.
  intros run. subst run.
  pose proof (take_screenshot_run url timeout w) as H.
  assert (Hclean : forall text limit,
             Forall started_clean [clean_start url text limit w]).
  { intros. repeat constructor. unfold started_clean. simpl.
    apply lookup_delete_eq. }
  destruct (files w !! screenshot_path) as [[data|]|] eqn:Hfile.
  2:{ destruct H as [e [-> _]]. exists []. simpl.
      rewrite app_nil_r. split; [reflexivity |].
      split; [apply List.Forall_nil | discriminate]. }
  all: destruct (take_screenshot sys self url timeout w) as [r w'];
    destruct (screenshot_call sys timeout) as [e|[text limit]];
    [ destruct H as [-> [_ Hspawned]]; exists []; simpl;
      rewrite app_nil_r; split; [exact Hspawned |];
      split; [apply List.Forall_nil | discriminate]
    | destruct (subprocess_run sys _ _ _) as [ran after] eqn:Hsub;
      destruct H as [Hfiles [Hspawned Hr]];
      exists [clean_start url text limit w]; simpl;
      split; [exact Hspawned |]; split; [apply Hclean |];
      intros p Hp; subst r;
      destruct ran as [[e|]|cp]; try discriminate;
      destruct (returncode cp =? 0); [| discriminate];
      injection Hp as <-; split; [reflexivity |];
      exists text, limit; rewrite Hsub; repeat split; exact Hfiles ].
Qed.

(** C8. Each call of the screenshot step removes the image at the
    conventional path before it starts its process: the process, when one
    is started, finds the files without it, and when none is started (the
    arguments of the call could not be computed) the image is gone all
    the same.  So in two calls in a row the second process finds no image
    of the first, and when the second call returns the path, the files
    are the ones its own process left behind, started without an
    image. *)
Theorem screenshot_step_removes_prior_image
    (url1 url2 : string) (timeout1 timeout2 : Z) (w : world) :
  let first := take_screenshot sys self url1 timeout1 w in
  let second := take_screenshot sys self url2 timeout2 (snd first) in
  (exists started,
     spawned (snd second) = spawned w ++ started /\
     Forall started_clean started) /\
  (forall data, files w !! screenshot_path = Some (File data) ->
     match screenshot_call sys timeout1 with
     | inr (text, limit) =>
         spawned (snd first) = spawned w ++ [clean_start url1 text limit w] /\
         files (snd first)
         = snd (subprocess_run sys (screenshot_args url1 text) limit
                  (delete screenshot_path (files w)))
     | inl _ =>
         spawned (snd first) = spawned w /\
         files (snd first) = delete screenshot_path (files w)
     end) /\
  (forall p, fst second = inr p ->
     p = screenshot_path /\
     exists text limit,
       screenshot_call sys timeout2 = inr (text, limit) /\
       spawned (snd second)
       = spawned (snd first) ++ [clean_start url2 text limit (snd first)] /\
       files (snd second)
       = snd (subprocess_run sys (screenshot_args url2 text) limit
                (delete screenshot_path (files (snd first))))).
Proof.
  intros first second. subst first second.
  destruct (take_screenshot_started url1 timeout1 w) as [s1 [Hs1 [Hc1 _]]].
  destruct (take_screenshot_started url2 timeout2
              (snd (take_screenshot sys self url1 timeout1 w)))
    as [s2 [Hs2 [Hc2 Hret2]]].
  simpl in *. split; [| split].
  - exists (s1 ++ s2). rewrite Hs2, Hs1, app_assoc.
    split; [reflexivity | now apply Forall_app].
  - intros data Hfile.
    pose proof (take_screenshot_run url1 timeout1 w) as H.
    rewrite Hfile in H.
    destruct (take_screenshot sys self url1 timeout1 w) as [r w'].
    destruct (screenshot_call sys timeout1) as [e|[text limit]].
    + destruct H as [_ [Hfiles Hspawned]]. now split.
    + destruct (subprocess_run sys _ _ _) as [ran after].
      destruct H as [Hfiles [Hspawned _]]. now split.
  - intros p Hp.
    destruct (Hret2 p Hp) as [-> [text [limit [Hcall [-> Hfiles]]]]].
    split; [reflexivity |]. exists text, limit.
    split; [exact Hcall |]. split; [exact Hs2 | exact Hfiles].
Qed.

Lemma analyze_screenshot_uninterrupted
    (image_path prompt model : string) (max_tokens : Z) (w : world) :
  fst (analyze_screenshot sys self image_path prompt model max_tokens w)
  <> inl KeyboardInterrupt.
Proof.
  unfold analyze_screenshot, encode_image, try_except, bind, read_binary,
    lift, ret, raise, first_item.
  destruct (files w !! image_path) as [[data|]|]; simpl; try discriminate.
  destruct (client self model _ max_tokens _) as [e0|c]; simpl;
    [discriminate |].
  destruct (ChatCompletion.choices c); discriminate.
Qed.

(** C7, in the form the code satisfies. For every URL and prompt the
    workflow lets no [Exception] escape.  When the screenshot step or the
    analysis step raises one, it returns [{url, error, success: False}]
    with the text of that exception; when both return, it returns [{url,
    screenshot_path, analysis, success: True}] with the path of the first
    and the text of the second.  The [KeyboardInterrupt] that ends the
    wait for the screenshot process is no [Exception] and passes to the
    caller; with a client that raises exceptions of the [Exception]
    family only, this is the one case in which the workflow raises. *)
Theorem scrape_and_analyze_returns_tagged_result
    (url prompt : string) (timeout : Z) (w : world) :
  let run := fst (scrape_and_analyze sys self url prompt timeout w) in
  (forall e : exn, run <> inl (Err e)) /\
  (run = inl KeyboardInterrupt ->
   exists text limit,
     screenshot_call sys timeout = inr (text, limit) /\
     fst (subprocess_run sys (screenshot_args url text) limit
            (delete screenshot_path (files w)))
     = inl KeyboardInterrupt) /\
  match take_screenshot sys self url timeout w with
  | (inl KeyboardInterrupt, _) => run = inl KeyboardInterrupt
  | (inl (Err e), _) =>
      run = inr {[ "url" := PStr url;
                   "error" := PStr (msg e);
                   "success" := PBool false ]}
  | (inr path, w1) =>
      match analyze_screenshot sys self path prompt
              "gpt-4-vision-preview" 1000 w1 with
      | (inl KeyboardInterrupt, _) => run = inl KeyboardInterrupt
      | (inl (Err e), _) =>
          run = inr {[ "url" := PStr url;
                       "error" := PStr (msg e);
                       "success" := PBool false ]}
      | (inr analysis, _) =>
          run = inr {[ "url" := PStr url;
                       "screenshot_path" := PStr path;
                       "analysis" := analysis;
                       "success" := PBool true ]}
      end
  end.
Proof.
  intros run. subst run.
  pose proof (take_screenshot_run url timeout w) as Hrun.
  unfold scrape_and_analyze, try_except, bind, ret, success_result,
    failure_result.
  destruct (take_screenshot sys self url timeout w) as [[[e|]|path] w1];
    simpl.
  - repeat split; discriminate.
  - split; [discriminate |]. split; [| reflexivity]. intros _.
    destruct (files w !! screenshot_path) as [[data|]|] eqn:Hfile.
    2:{ destruct Hrun as [e [[=] _]]. }
    all: destruct (screenshot_call sys timeout) as [e|[text limit]];
      [ destruct Hrun as [[=] _]
      | exists text, limit; split; [reflexivity |];
        destruct (subprocess_run sys _ _ _) as [[[e|]|p] after];
        destruct Hrun as [_ [_ Hr]]; simpl;
        [ discriminate | reflexivity
        | destruct (returncode p =? 0); discriminate ] ].
  - pose proof (analyze_screenshot_uninterrupted path prompt
                  "gpt-4-vision-preview" 1000 w1) as Hno.
    destruct (analyze_screenshot sys self path prompt _ _ w1)
      as [[[e|]|analysis] w2]; simpl in *.
    + repeat split; discriminate.
    + congruence.
    + repeat split; discriminate.
Qed.

(** The tag and the fields of the two results. *)
Lemma success_result_fields (url path : string) (analysis : pyval) :
  success_result url path analysis !! "success" = Some (PBool true) /\
  success_result url path analysis !! "url" = Some (PStr url) /\
  success_result url path analysis !! "screenshot_path" = Some (PStr path) /\
  success_result url path analysis !! "analysis" = Some analysis /\
  success_result url path analysis !! "error" = None.
Proof. repeat split. Qed.

Lemma failure_result_fields (url error : string) :
  failure_result url error !! "success" = Some (PBool false) /\
  failure_result url error !! "url" = Some (PStr url) /\
  failure_result url error !! "error" = Some (PStr error) /\
  failure_result url error !! "analysis" = None /\
  failure_result url error !! "screenshot_path" = None.
Proof. repeat split. Qed.

Lemma analyze_screenshot_first_choice
    (image_path prompt model : string) (max_tokens : Z) (w : world)
    (data : list byte) (c : ChatCompletion.t) (ch : Choice.t)
    (chs : list Choice.t) :
  files w !! image_path = Some (File data) ->
  client self model (vision_messages prompt (b64encode sys data))
    max_tokens 0.1%float = inr c ->
  ChatCompletion.choices c = ch :: chs ->
  analyze_screenshot sys self image_path prompt model max_tokens w
  = (inr (Message.content (Choice.message ch)), w).
Proof.
  intros Hfile Hclient Hchoices.
  unfold analyze_screenshot, encode_image, try_except, bind, read_binary,
    lift, ret.
  rewrite Hfile. cbn [fst snd]. rewrite Hclient. simpl. now rewrite Hchoices.
Qed.

(** With an image at the path, the analysis step asks the client with
    the model, the token bound and temperature 0.1 for one message of
    role user, whose content is the prompt as a text part and the image
    as a [data:image/jpeg;base64,] URI of detail high, and returns the
    content of the first choice of the answer, the world unchanged. *)
Theorem analyze_screenshot_returns_content
    (image_path prompt model : string) (max_tokens : Z) (w : world)
    (data : list byte) (c : ChatCompletion.t) (ch : Choice.t)
    (chs : list Choice.t) :
  files w !! image_path = Some (File data) ->
  client self model
    [PDict
       [("role", PStr "user");
        ("content",
          PList
            [PDict [("type", PStr "text"); ("text", PStr prompt)];
             PDict
               [("type", PStr "image_url");
                ("image_url",
                  PDict
                    [("url", PStr ("data:image/jpeg;base64,"
                                   +:+ b64encode sys data));
                     ("detail", PStr "high")])]])]]
    max_tokens 0.1%float = inr c ->
  ChatCompletion.choices c = ch :: chs ->
  analyze_screenshot sys self image_path prompt model max_tokens w
  = (inr (Message.content (Choice.message ch)), w).
Proof.
  intros Hfile Hclient Hchoices.
  exact (analyze_screenshot_first_choice image_path prompt model max_tokens
           w data c ch chs Hfile Hclient Hchoices).
Qed.

End Workflow.

(** ** The workflow on sample surroundings *)

Example base64_of_Man :
  Sample.b64 ["M"%byte; "a"%byte; "n"%byte] = "TWFu" /\
  Sample.b64 ["M"%byte; "a"%byte] = "TWE=" /\
  Sample.b64 ["M"%byte] = "TQ==".
Proof. repeat split. Qed.

(** The default timeout gives the digits [30000] and a limit of 40
    seconds; an int beyond the doubles gives no limit. *)
Example screenshot_call_of_default :
  VisionScraper.screenshot_call Fixture.camera 30000
  = inr ("30000", 40%float) /\
  VisionScraper.screenshot_call Fixture.camera (10 ^ 400)
  = inl (mk_exn OverflowError "integer division result too large for a float").
Proof. split; vm_compute; reflexivity. Qed.

Example scrape_succeeds :
  fst (VisionScraper.scrape_and_analyze
         (Sample.camera 0 "" ["n"%byte; "e"%byte; "w"%byte])
         {| VisionScraper.client := Sample.answers "a login form" |}
         "https://example.com" "describe the page" 30000 Sample.stale_world)
  = inr (VisionScraper.success_result "https://example.com" "screenshot.jpg"
           (PStr "a login form")).
Proof. vm_compute. reflexivity. Qed.

Example scrape_fails_with_the_camera :
  fst (VisionScraper.scrape_and_analyze
         (Sample.camera 1 "net::ERR_NAME_NOT_RESOLVED" [])
         {| VisionScraper.client := Sample.answers "a login form" |}
         "https://example.com" "describe the page" 30000 Sample.stale_world)
  = inr (VisionScraper.failure_result "https://example.com"
           "Error taking screenshot: Screenshot script failed: net::ERR_NAME_NOT_RESOLVED").
Proof. vm_compute. reflexivity. Qed.

(** A timeout beyond the doubles fails inside the screenshot step, before
    any process is started. *)
Example scrape_fails_with_the_timeout :
  VisionScraper.scrape_and_analyze Fixture.camera Fixture.scraper
    "https://example.com" "describe the page" (10 ^ 400) Sample.empty_world
  = (inr (VisionScraper.failure_result "https://example.com"
            "Error taking screenshot: integer division result too large for a float"),
     wrote Sample.empty_world ["Taking screenshot of: https://example.com"]).
Proof. vm_compute. reflexivity. Qed.

(** The scraper over the client of this repository, end to end. *)
Example scrape_through_the_client :
  fst (VisionScraper.scrape_and_analyze
         (Sample.camera 0 "" ["n"%byte; "e"%byte; "w"%byte])
         {| VisionScraper.client :=
              completions_of
                (Sample.answering Since_2_27 200 "OK" Sample.completion_text)
                Sample.client |}
         "https://example.com" "describe the page" 30000 Sample.empty_world)
  = inr (VisionScraper.success_result "https://example.com" "screenshot.jpg"
           (PStr "a login form")).
Proof. vm_compute. reflexivity. Qed.

(** C7, as stated, fails when the interrupt key ends the wait for the
    screenshot process: the workflow raises [KeyboardInterrupt] and
    returns no dict. *)
Lemma interrupt_escapes_the_workflow :
  ~ always_returns Fixture.interrupted_camera Fixture.scraper
      "https://example.com" "describe the page" 30000 Sample.empty_world.
Proof.
  intros [d Hd]. vm_compute in Hd. discriminate.
Qed.

Lemma scrape_and_analyze_returns_tagged_result_witness :
  fst (VisionScraper.scrape_and_analyze Fixture.interrupted_camera
         Fixture.scraper "https://example.com" "describe the page" 30000
         Sample.empty_world)
  = inl KeyboardInterrupt /\
  exists text limit,
    VisionScraper.screenshot_call Fixture.interrupted_camera 30000
    = inr (text, limit) /\
    fst (subprocess_run Fixture.interrupted_camera
           (screenshot_args "https://example.com" text) limit
           (delete VisionScraper.screenshot_path (files Sample.empty_world)))
    = inl KeyboardInterrupt.
Proof.
  split; [vm_compute; reflexivity |].
  apply (proj1 (proj2 (scrape_and_analyze_returns_tagged_result
                         Fixture.interrupted_camera Fixture.scraper
                         "https://example.com" "describe the page" 30000
                         Sample.empty_world))).
  vm_compute. reflexivity.
Defined.

Lemma screenshot_step_removes_prior_image_witness :
  let sys := Sample.camera 0 "" ["n"%byte; "e"%byte; "w"%byte] in
  let self := {| VisionScraper.client := Sample.answers "a login form" |} in
  let first := VisionScraper.take_screenshot sys self "https://example.com"
                 30000 Sample.stale_world in
  spawned (snd first)
  = spawned Sample.stale_world
    ++ [clean_start "https://example.com" "30000" 40%float Sample.stale_world] /\
  files (snd first) !! "screenshot.jpg"
  = Some (File ["n"%byte; "e"%byte; "w"%byte]).
Proof.
  pose proof (proj1 (proj2 (screenshot_step_removes_prior_image
                         (Sample.camera 0 "" ["n"%byte; "e"%byte; "w"%byte])
                         {| VisionScraper.client := Sample.answers "a login form" |}
                         "https://example.com" "https://example.com"
                         30000 30000 Sample.stale_world))
           ["o"%byte; "l"%byte; "d"%byte] eq_refl) as H.
  change (VisionScraper.screenshot_call
            (Sample.camera 0 "" ["n"%byte; "e"%byte; "w"%byte]) 30000)
    with (@inr exn _ ("30000", 40%float)) in H.
  destruct H as [Hspawned Hfiles]. split; [exact Hspawned |].
  rewrite Hfiles. vm_compute. reflexivity.
Defined.

(** A failed second run leaves no image: the one of the first run is
    gone, and the analysis step reports the missing file. *)
Example failed_rerun_leaves_no_image :
  let sys1 := Sample.camera 0 "" ["n"%byte; "e"%byte; "w"%byte] in
  let sys2 := Sample.camera 1 "crashed" [] in
  let self := {| VisionScraper.client := Sample.answers "a login form" |} in
  let w1 := snd (VisionScraper.take_screenshot sys1 self "https://example.com"
                   30000 Sample.empty_world) in
  let w2 := snd (VisionScraper.take_screenshot sys2 self "https://example.com"
                   30000 w1) in
  files w1 !! "screenshot.jpg" = Some (File ["n"%byte; "e"%byte; "w"%byte]) /\
  files w2 !! "screenshot.jpg" = None.
Proof. vm_compute. split; reflexivity. Qed.
(** * Further properties of the client *)

Lemma starts_with_append (p s : string) : Str.starts_with p (p +:+ s) = true.
Proof. apply starts_with_spec. now exists s. Qed.

Lemma resolves_to_or (environ : gmap string string) (api_key : option string)
    (k : string) :
  resolves_to environ api_key k ->
  k <> "" /\
  CustomOpenAIClient.py_or api_key (environ !! "OPENAI_API_KEY") = Some k.
Proof.
  intros [Hk H]. split; [exact Hk |]. unfold CustomOpenAIClient.py_or.
  destruct H as [-> | [[-> | ->] Henv]]; try exact Henv.
  now rewrite truthy_Some.
Qed.

Lemma named_lookup (model : string) (messages : list pyval) (max_tokens : Z)
    (temperature : float) (k : string) :
  CustomOpenAIClient.payload model messages max_tokens temperature ∅ !! k
  = named_entry model messages max_tokens temperature k.
Proof. rewrite payload_lookup. now rewrite lookup_empty. Qed.

Lemma named_entry_Some (model : string) (messages : list pyval)
    (max_tokens : Z) (temperature : float) (k : string) (v : pyval) :
  named_entry model messages max_tokens temperature k = Some v ->
  k ∈ named_parameters.
Proof.
  unfold named_entry, named_parameters. intros H.
  destruct (String.eqb_spec k "model") as [-> | _]; [set_solver |].
  destruct (String.eqb_spec k "messages") as [-> | _]; [set_solver |].
  destruct (String.eqb_spec k "max_tokens") as [-> | _]; [set_solver |].
  destruct (String.eqb_spec k "temperature") as [-> | _]; [set_solver |].
  discriminate.
Qed.

Lemma handled_shape (lib : Library) (e0 e : exn) :
  handled lib e0 = inl e ->
  cls e = Exception_ /\ e_response e = None /\
  client_error_shape (msg e) = true.
Proof.
  unfold handled, CustomOpenAIClient.handler, client_error_shape.
  destruct (is_RequestException (cls e0)); [| destruct (is_JSONDecodeError (cls e0))];
    intros [= <-]; repeat split; vm_compute; reflexivity.
Qed.

Section MoreCreate.

Context (lib : Library) (self : CustomOpenAIClient.t).
Context (model : string) (messages : list pyval).
Context (max_tokens : Z) (temperature : float).
Context (extra : gmap string pyval).

Let call : M ChatCompletion.t :=
  client_create lib self model messages max_tokens temperature extra.
Let request : http_request :=
  sent_request self model messages max_tokens temperature extra.

(** The body of the request holds the four named fields with the values
    of the call and every extra parameter, and nothing else. *)
Theorem body_holds_named_fields_and_extras :
  extra_is_extra extra ->
  exists req,
    calls call = [req] /\
    req_json req !! "model" = Some (PStr model) /\
    req_json req !! "messages" = Some (PList messages) /\
    req_json req !! "max_tokens" = Some (PInt max_tokens) /\
    req_json req !! "temperature" = Some (PFloat temperature) /\
    extra ⊆ req_json req /\
    size (req_json req) = (4 + size extra)%nat.
Proof.
  intros Hextra. exists request. split.
  { subst call. now rewrite (create_run _ _ _ _ _ _ _ Hextra). }
  subst request. unfold sent_request. simpl.
  assert (Hnamed : forall k, k ∈ named_parameters -> extra !! k = None)
    by exact Hextra.
  repeat split.
  1-4: rewrite payload_lookup, Hnamed by (unfold named_parameters; set_solver);
       reflexivity.
  - unfold CustomOpenAIClient.payload. apply map_union_subseteq_l.
  - unfold CustomOpenAIClient.payload. rewrite map_size_disj_union.
    + rewrite Nat.add_comm. f_equal.
    + apply map_disjoint_alt. intros k.
      destruct (extra !! k) as [v|] eqn:Hk; [right | now left].
      pose proof (named_lookup model messages max_tokens temperature k) as Hl.
      unfold CustomOpenAIClient.payload in Hl.
      rewrite (left_id_L ∅ (∪)) in Hl. rewrite Hl.
      destruct (named_entry model messages max_tokens temperature k) as [v'|] eqn:Hn;
        [| reflexivity].
      apply named_entry_Some in Hn. rewrite (Hextra k Hn) in Hk. discriminate.
Qed.

(** When [requests.post] raises an exception of its own family that
    carries no response (connection refused, timeout), the call raises
    ["API request failed: "] followed by the text of that exception,
    after the one call of [requests.post]. *)
Theorem transport_failure_surfaced (e : exn) :
  extra_is_extra extra ->
  requests_post lib request = inl e ->
  is_RequestException (cls e) = true ->
  e_response e = None ->
  calls call = [request] /\
  outcome call = inl (mk_exn Exception_ ("API request failed: " +:+ msg e)).
Proof.
  intros Hextra Hpost Hcls Hresp. subst call.
  rewrite (create_run _ _ _ _ _ _ _ Hextra). split; [reflexivity |].
  unfold outcome. simpl. subst request. rewrite Hpost.
  unfold handled, CustomOpenAIClient.handler. rewrite Hcls. simpl.
  unfold CustomOpenAIClient.error_message. now rewrite Hresp.
Qed.

(** Whatever the server or the transport does, a call that raises raises
    a plain [Exception] whose message opens with ["API request failed: "],
    ["Failed to parse API response: "] or ["Unexpected error: "]. *)
Theorem create_raises_one_family (e : exn) :
  extra_is_extra extra ->
  outcome call = inl e ->
  cls e = Exception_ /\ client_error_shape (msg e) = true.
Proof.
  intros Hextra. subst call. rewrite (create_run _ _ _ _ _ _ _ Hextra).
  unfold outcome. simpl. intros H.
  assert (Hh : exists e0, handled lib e0 = inl e).
  { destruct (requests_post lib _) as [e0|response]; [now exists e0 |].
    destruct (raise_for_status response) as [e0|[]]; [now exists e0 |].
    destruct (response_json lib response) as [e0|data]; [now exists e0 |].
    destruct (ChatCompletion.__init__ data) as [e0|c]; [now exists e0 |].
    discriminate. }
  destruct Hh as [e0 Hh]. destruct (handled_shape lib e0 e Hh) as [? [_ ?]].
  now split.
Qed.

(** A 4xx or 5xx whose body is a JSON object without ["error"], or with
    an ["error"] object without ["message"], is reported by the text of
    the [HTTPError]: status, kind, reason phrase and URL. *)
Theorem http_error_without_message_key
    (response : http_response) (d : list (string * pyval)) :
  extra_is_extra extra ->
  requests_post lib request = inr response ->
  is_4xx_5xx response ->
  json_loads lib (text response) = inr (PDict d) ->
  assoc "error" d = None \/
  (exists err, assoc "error" d = Some (PDict err) /\
               assoc "message" err = None) ->
  outcome call
  = inl (mk_exn Exception_
           ("API request failed: " +:+ http_error_text response)).
Proof.
  intros Hextra Hpost [Hlo Hhi] Hjson Hkey. subst call.
  rewrite (create_run _ _ _ _ _ _ _ Hextra).
  unfold outcome. simpl. subst request. rewrite Hpost.
  unfold raise_for_status, http_error_text.
  destruct (status_code response <? 500) eqn:H5.
  - replace (400 <=? status_code response) with true by (symmetry; lia).
    simpl. unfold handled, CustomOpenAIClient.handler. simpl.
    unfold CustomOpenAIClient.error_message. simpl.
    unfold response_json. rewrite Hjson. simpl.
    destruct Hkey as [-> | [err [-> Hm]]]; simpl; [reflexivity |].
    now rewrite Hm.
  - replace (500 <=? status_code response) with true by (symmetry; lia).
    replace (status_code response <? 600) with true by (symmetry; lia).
    rewrite andb_false_r. simpl.
    unfold handled, CustomOpenAIClient.handler. simpl.
    unfold CustomOpenAIClient.error_message. simpl.
    unfold response_json. rewrite Hjson. simpl.
    destruct Hkey as [-> | [err [-> Hm]]]; simpl; [reflexivity |].
    now rewrite Hm.
Qed.

(** A 4xx or 5xx whose body is JSON but no object, or whose ["error"] is
    no object, is reported like a body that is not JSON: by status code
    and raw body. *)
Theorem http_error_body_not_an_object
    (response : http_response) (v : pyval) :
  extra_is_extra extra ->
  requests_post lib request = inr response ->
  is_4xx_5xx response ->
  json_loads lib (text response) = inr v ->
  is_dict v = false \/
  (exists d x, v = PDict d /\ assoc "error" d = Some x /\ is_dict x = false) ->
  outcome call
  = inl (mk_exn Exception_
           ("API request failed: HTTP " +:+ pretty (status_code response)
            +:+ ": " +:+ text response)).
Proof.
  intros Hextra Hpost Hstatus Hjson Hshape.
  destruct (raise_for_status_error response Hstatus) as [e [He [Hcls Hresp]]].
  subst call. rewrite (create_run _ _ _ _ _ _ _ Hextra).
  unfold outcome. simpl. subst request. rewrite Hpost, He.
  unfold handled, CustomOpenAIClient.handler. rewrite Hcls. simpl.
  unfold CustomOpenAIClient.error_message. rewrite Hresp.
  unfold response_json. rewrite Hjson. simpl.
  destruct Hshape as [Hv | [d [x [-> [Hx Hd]]]]].
  - destruct v; try discriminate; reflexivity.
  - simpl. rewrite Hx. simpl. destruct x; try discriminate; reflexivity.
Qed.

(** A 2xx whose body is JSON but no object is an unexpected error that
    names the type of the value. *)
Theorem success_body_not_an_object
    (response : http_response) (v : pyval) :
  extra_is_extra extra ->
  requests_post lib request = inr response ->
  is_2xx response ->
  json_loads lib (text response) = inr v ->
  is_dict v = false ->
  outcome call
  = inl (mk_exn Exception_
           ("Unexpected error: '" +:+ type_name v
            +:+ "' object has no attribute 'get'")).
Proof.
  intros Hextra Hpost [Hlo Hhi] Hjson Hv. subst call.
  rewrite (create_run _ _ _ _ _ _ _ Hextra).
  unfold outcome. simpl. subst request. rewrite Hpost.
  unfold raise_for_status.
  replace (400 <=? status_code response) with false by (symmetry; lia).
  replace (500 <=? status_code response) with false by (symmetry; lia).
  simpl. unfold response_json. rewrite Hjson.
  destruct v; try discriminate; reflexivity.
Qed.

(** A 2xx whose ["choices"] is [null], a boolean or a number is an
    unexpected error: the value cannot be iterated. *)
Theorem success_choices_not_iterable
    (response : http_response) (d : list (string * pyval)) (v : pyval) :
  extra_is_extra extra ->
  requests_post lib request = inr response ->
  is_2xx response ->
  json_loads lib (text response) = inr (PDict d) ->
  assoc "choices" d = Some v ->
  is_scalar v = true ->
  outcome call
  = inl (mk_exn Exception_
           ("Unexpected error: '" +:+ type_name v
            +:+ "' object is not iterable")).
Proof.
  intros Hextra Hpost [Hlo Hhi] Hjson Hch Hv. subst call.
  rewrite (create_run _ _ _ _ _ _ _ Hextra).
  unfold outcome. simpl. subst request. rewrite Hpost.
  unfold raise_for_status.
  replace (400 <=? status_code response) with false by (symmetry; lia).
  replace (500 <=? status_code response) with false by (symmetry; lia).
  simpl. unfold response_json. rewrite Hjson.
  unfold ChatCompletion.__init__, py_get. rewrite Hch. simpl.
  destruct v; try discriminate; reflexivity.
Qed.

End MoreCreate.

(** A client built from a key and a base URL posts to that base URL,
    freed of its trailing slashes, followed by [/v1/chat/completions],
    and sends three headers: the bearer token of the key it resolved, the
    JSON content type and its signature. *)
Theorem constructed_client_request
    (lib : Library) (environ : gmap string string) (api_key : option string)
    (base k model : string) (messages : list pyval) (max_tokens : Z)
    (temperature : float) (extra : gmap string pyval) :
  resolves_to environ api_key k ->
  extra_is_extra extra ->
  exists c req,
    outcome (CustomOpenAIClient.__init__ environ api_key base) = inr c /\
    calls (client_create lib c model messages max_tokens temperature extra)
    = [req] /\
    req_url req = Str.rstrip "/" base +:+ "/v1/chat/completions" /\
    req_headers req !! "Authorization" = Some ("Bearer " +:+ k) /\
    req_headers req !! "Content-Type" = Some "application/json" /\
    req_headers req !! "User-Agent" = Some "CustomOpenAIClient/1.0" /\
    size (req_headers req) = 3%nat /\
    req_timeout req = 60.
Proof.
  intros Hres Hextra. destruct (resolves_to_or _ _ _ Hres) as [Hk Hor].
  eexists _, _. split.
  { rewrite (init_with_key environ api_key base k Hk Hor). reflexivity. }
  split.
  { now rewrite (create_run _ _ _ _ _ _ _ Hextra). }
  repeat split.
Qed.

Lemma Choice_init_kept (raw : pyval) :
  choice_shape raw = true ->
  exists c, Choice.__init__ raw = inr c /\ choice_kept raw c.
Proof.
  destruct raw as [| | | | | |cd]; try discriminate. simpl. intros Hshape.
  unfold Choice.__init__, py_get, choice_kept.
  destruct (assoc "message" cd) as [[| | | | | |md]|] eqn:Hm;
    try discriminate; simpl.
  - eexists. split; [reflexivity |]. exists cd. rewrite Hm. repeat split.
  - eexists. split; [reflexivity |]. exists cd. rewrite Hm. repeat split.
Qed.

Lemma choices_kept (l : list pyval) :
  forallb choice_shape l = true ->
  exists cs, rmap Choice.__init__ l = inr cs /\ Forall2 choice_kept l cs.
Proof.
  induction l as [|raw l IH]; simpl.
  - intros _. exists []. split; [reflexivity | constructor].
  - rewrite andb_true_iff. intros [Hraw Hl].
    destruct (Choice_init_kept raw Hraw) as [c [Hc Hk]].
    destruct (IH Hl) as [cs [Hcs Hall]].
    exists (c :: cs). rewrite Hc. simpl. rewrite Hcs. simpl.
    split; [reflexivity | now constructor].
Qed.

(** Decoding keeps what the body holds: each scalar field of the
    completion is the value under its key, there are as many choices as
    the body lists, in the same order, and each holds the index, finish
    reason, role and content of its object. *)
Theorem decode_keeps_present_values (d : list (string * pyval)) :
  response_shape d = true ->
  exists c,
    ChatCompletion.__init__ (PDict d) = inr c /\
    ChatCompletion.id_ c = field "id" d /\
    ChatCompletion.object c = field "object" d /\
    ChatCompletion.created c = field "created" d /\
    ChatCompletion.model c = field "model" d /\
    ChatCompletion.usage c = field "usage" d /\
    length (ChatCompletion.choices c) = length (raw_choices d) /\
    Forall2 choice_kept (raw_choices d) (ChatCompletion.choices c).
Proof.
  unfold response_shape, raw_choices. intros Hshape.
  unfold ChatCompletion.__init__, py_get.
  destruct (assoc "choices" d) as [raw|] eqn:Hch; simpl in *.
  - destruct raw as [| | | | |l|]; try discriminate. simpl in *.
    destruct (choices_kept l Hshape) as [cs [Hcs Hall]].
    rewrite Hcs. simpl. eexists. split; [reflexivity |]. simpl.
    repeat split; try exact Hall.
    symmetry. exact (Forall2_length _ _ _ Hall).
  - eexists. split; [reflexivity |]. simpl. repeat split. constructor.
Qed.

(** * Further properties of the workflow *)

Section MoreWorkflow.

Import VisionScraper.

Context (sys : System) (self : VisionScraper.t).

(** [encode_image] changes nothing around it.  It returns the base64
    text of the file, raises [FileNotFoundError] naming the path when the
    file is missing, and wraps any other failure of the read. *)
Theorem encode_image_reads_only (image_path : string) (w : world) :
  snd (encode_image sys self image_path w) = w /\
  fst (encode_image sys self image_path w)
  = match files w !! image_path with
    | Some (File data) => inr (b64encode sys data)
    | Some Dir =>
        inl (Err (mk_exn Exception_
                    ("Error encoding image: [Errno 21] Is a directory: '"
                     +:+ image_path +:+ "'")))
    | None =>
        inl (Err (mk_exn FileNotFoundError
                    ("Image file not found: " +:+ image_path)))
    end.
Proof.
  unfold encode_image, try_except, bind, read_binary, ret, raise.
  destruct (files w !! image_path) as [[data|]|]; split; reflexivity.
Qed.

(** The screenshot step returns exactly when the two arguments it
    computes from the timeout exist, [str(timeout)] and [timeout / 1000 +
    10], and the process started with them finishes with exit code 0; it
    then returns the conventional path.  Whether the process wrote the
    image plays no part. *)
Theorem take_screenshot_returns_iff_exit_zero
    (url : string) (timeout : Z) (w : world) :
  files w !! screenshot_path <> Some Dir ->
  forall p,
    fst (take_screenshot sys self url timeout w) = inr p <->
    p = "screenshot.jpg" /\
    exists text limit finished,
      screenshot_call sys timeout = inr (text, limit) /\
      fst (subprocess_run sys ["node"; "screenshot.js"; url; text] limit
             (delete screenshot_path (files w)))
      = inr finished /\
      returncode finished = 0.
Proof.
  intros Hdir p. pose proof (take_screenshot_run sys self url timeout w) as H.
  unfold screenshot_args in H.
  destruct (files w !! screenshot_path) as [[data|]|] eqn:Hfile;
    [| congruence |].
  all: destruct (take_screenshot sys self url timeout w) as [r w'];
    destruct (screenshot_call sys timeout) as [e|[text limit]];
    [ destruct H as [-> _]; simpl;
      split; [discriminate | intros [_ (t & l & f & [=] & _)]]
    | destruct (subprocess_run sys _ _ _) as [ran after] eqn:Hsub;
      destruct H as [_ [_ ->]]; simpl;
      split;
      [ intros Hp; destruct ran as [[e|]|finished]; try discriminate;
        destruct (returncode finished =? 0) eqn:Hcode; [| discriminate];
        injection Hp as <-; split; [reflexivity |];
        exists text, limit, finished; rewrite Hsub;
        split; [reflexivity |]; split; [reflexivity | lia]
      | intros [-> (t & l & f & [= <- <-] & Hf & Hz)];
        rewrite Hsub in Hf; simpl in Hf; subst ran;
        apply Z.eqb_eq in Hz; now rewrite Hz ] ].
Qed.

(** The messages of a failed screenshot step.  When an argument of the
    call cannot be computed from the timeout, the exception of that
    computation is reported by the handlers and nothing else.  Otherwise
    a non-zero exit code gives the standard error of the process behind
    two prefixes, the one of the check and the one of the handler around
    it; a timeout gives a fixed text; any other exception of the launch
    gives its text behind the handler's prefix; and the interrupt key
    passes as it is. *)
Theorem take_screenshot_failure_text (url : string) (timeout : Z) (w : world) :
  files w !! screenshot_path <> Some Dir ->
  match screenshot_call sys timeout with
  | inl e =>
      fst (take_screenshot sys self url timeout w)
      = inl (Err (mk_exn Exception_
                    (if is_TimeoutExpired (cls e)
                     then "Screenshot process timed out"
                     else "Error taking screenshot: " +:+ msg e)))
  | inr (text, limit) =>
      match fst (subprocess_run sys ["node"; "screenshot.js"; url; text] limit
                   (delete screenshot_path (files w)))
      with
      | inr finished =>
          returncode finished <> 0 ->
          fst (take_screenshot sys self url timeout w)
          = inl (Err (mk_exn Exception_
                        ("Error taking screenshot: Screenshot script failed: "
                         +:+ stderr finished)))
      | inl (Err e) =>
          fst (take_screenshot sys self url timeout w)
          = inl (Err (mk_exn Exception_
                        (if is_TimeoutExpired (cls e)
                         then "Screenshot process timed out"
                         else "Error taking screenshot: " +:+ msg e)))
      | inl KeyboardInterrupt =>
          fst (take_screenshot sys self url timeout w) = inl KeyboardInterrupt
      end
  end.
Proof.
  intros Hdir. pose proof (take_screenshot_run sys self url timeout w) as H.
  unfold screenshot_args, screenshot_error in H.
  destruct (files w !! screenshot_path) as [[data|]|] eqn:Hfile;
    [| congruence |].
  all: destruct (take_screenshot sys self url timeout w) as [r w'];
    destruct (screenshot_call sys timeout) as [e|[text limit]];
    [ destruct H as [-> _]; reflexivity
    | destruct (subprocess_run sys _ _ _) as [ran after];
      destruct H as [_ [_ ->]]; simpl;
      destruct ran as [[e|]|finished]; [reflexivity | reflexivity |];
      intros Hcode; destruct (returncode finished =? 0) eqn:Hz;
      [lia | reflexivity] ].
Qed.

(** What the screenshot step prints: the removal when an image was
    there, the URL it is about to capture, and the success line only when
    it returns. *)
Theorem take_screenshot_console (url : string) (timeout : Z) (w : world) :
  files w !! screenshot_path <> Some Dir ->
  console (snd (take_screenshot sys self url timeout w))
  = console w
    ++ screenshot_log url (is_file (files w !! screenshot_path))
         (returned (fst (take_screenshot sys self url timeout w))).
Proof.
  intros Hdir.
  unfold take_screenshot, bind, try_except, os_path_exists, os_remove, run,
    print, ret, raise, lift, screenshot_log.
  destruct (files w !! screenshot_path) as [[data|]|] eqn:Hfile;
    [| congruence |]; simpl.
  - rewrite Hfile. simpl.
    destruct (screenshot_call sys timeout) as [e|[text limit]]; simpl.
    { destruct (is_TimeoutExpired (cls e)); simpl;
        now rewrite <- !app_assoc. }
    destruct (subprocess_run sys _ _ _) as [[[e|]|finished] after]; simpl.
    + destruct (is_TimeoutExpired (cls e)); simpl;
        now rewrite <- !app_assoc.
    + now rewrite <- !app_assoc.
    + destruct (returncode finished =? 0); simpl; now rewrite <- !app_assoc.
  - destruct (screenshot_call sys timeout) as [e|[text limit]]; simpl.
    { destruct (is_TimeoutExpired (cls e)); simpl;
        now rewrite <- ?app_assoc. }
    destruct (subprocess_run sys _ _ _) as [[[e|]|finished] after]; simpl.
    + destruct (is_TimeoutExpired (cls e)); simpl;
        now rewrite <- ?app_assoc.
    + now rewrite <- ?app_assoc.
    + destruct (returncode finished =? 0); simpl; now rewrite <- ?app_assoc.
Qed.

(** The analysis step changes nothing around it, and whatever it raises
    is a plain [Exception] behind one prefix. *)
Theorem analyze_screenshot_reads_only
    (image_path prompt model : string) (max_tokens : Z) (w : world) :
  snd (analyze_screenshot sys self image_path prompt model max_tokens w) = w /\
  forall r : raised,
    fst (analyze_screenshot sys self image_path prompt model max_tokens w)
    = inl r ->
    exists e,
      r = Err e /\ cls e = Exception_ /\ exists m, msg e = analysis_error m.
Proof.
  unfold analyze_screenshot, encode_image, try_except, bind, read_binary,
    lift, ret, raise, first_item, analysis_error.
  destruct (files w !! image_path) as [[data|]|]; simpl.
  - destruct (client self model _ max_tokens _) as [e0|c]; simpl.
    + split; [reflexivity |]. intros r [= <-]. eauto.
    + destruct (ChatCompletion.choices c); simpl.
      * split; [reflexivity |]. intros r [= <-]. eauto.
      * split; [reflexivity | discriminate].
  - split; [reflexivity |]. intros r [= <-]. eauto.
  - split; [reflexivity |]. intros r [= <-]. eauto.
Qed.

(** Without an image at the path the analysis step fails before it
    reaches the client, whatever the client would answer. *)
Theorem analyze_screenshot_missing_image
    (image_path prompt model : string) (max_tokens : Z) (w : world) :
  files w !! image_path = None ->
  fst (analyze_screenshot sys self image_path prompt model max_tokens w)
  = inl (Err (mk_exn Exception_
                (analysis_error ("Image file not found: " +:+ image_path)))).
Proof.
  intros Hfile.
  unfold analyze_screenshot, encode_image, try_except, bind, read_binary,
    raise, analysis_error.
  now rewrite Hfile.
Qed.

(** With an image, the analysis step hands on the failure of the client
    behind its prefix, and reports a completion without choices as an
    index out of range. *)
Theorem analyze_screenshot_client_failures
    (image_path prompt model : string) (max_tokens : Z) (w : world)
    (data : list byte) :
  files w !! image_path = Some (File data) ->
  match client self model (vision_messages prompt (b64encode sys data))
          max_tokens 0.1%float with
  | inl e =>
      fst (analyze_screenshot sys self image_path prompt model max_tokens w)
      = inl (Err (mk_exn Exception_ (analysis_error (msg e))))
  | inr c =>
      ChatCompletion.choices c = [] ->
      fst (analyze_screenshot sys self image_path prompt model max_tokens w)
      = inl (Err (mk_exn Exception_
                    (analysis_error "list index out of range")))
  end.
Proof.
  intros Hfile.
  unfold analyze_screenshot, encode_image, try_except, bind, read_binary,
    lift, ret, raise, first_item, analysis_error.
  rewrite Hfile. cbn [fst snd].
  destruct (client self model _ max_tokens _) as [e|c]; simpl;
    [reflexivity |].
  now intros ->.
Qed.

End MoreWorkflow.

Section WholeWorkflow.

Import VisionScraper.

Context (sys : System) (self : VisionScraper.t).

Lemma analyze_screenshot_world
    (image_path prompt model : string) (max_tokens : Z) (w : world) :
  snd (analyze_screenshot sys self image_path prompt model max_tokens w) = w.
Proof.
  unfold analyze_screenshot, encode_image, try_except, bind, read_binary,
    lift, ret, raise, first_item.
  destruct (files w !! image_path) as [[data|]|]; simpl; try reflexivity.
  destruct (client self model _ max_tokens _) as [e0|c]; simpl;
    [reflexivity |].
  now destruct (ChatCompletion.choices c).
Qed.

Lemma take_screenshot_exit_zero (url : string) (timeout : Z) (w : world)
    (text : string) (limit : float)
    (finished : completed_process) (after : gmap string node) :
  files w !! screenshot_path <> Some Dir ->
  screenshot_call sys timeout = inr (text, limit) ->
  subprocess_run sys ["node"; "screenshot.js"; url; text] limit
    (delete screenshot_path (files w)) = (inr finished, after) ->
  returncode finished = 0 ->
  exists w', take_screenshot sys self url timeout w = (inr "screenshot.jpg", w')
             /\ files w' = after.
Proof.
  intros Hdir Hcall Hrun Hcode.
  pose proof (take_screenshot_run sys self url timeout w) as H.
  unfold screenshot_args in H.
  destruct (files w !! screenshot_path) as [[data|]|] eqn:Hfile;
    [| congruence |].
  all: destruct (take_screenshot sys self url timeout w) as [r w'];
    rewrite Hcall, Hrun in H; destruct H as [Hfiles [_ ->]];
    rewrite Hcode; simpl; now exists w'.
Qed.

(** End to end: when the two arguments of the call exist, the process
    started with them exits with 0 and leaves an image, and the client,
    asked with the model gpt-4-vision-preview, 1000 tokens and
    temperature 0.1 for the one user message (the prompt as a text part
    and the image as a base64 data URI of detail high), answers with at
    least one choice, the workflow returns [{url, screenshot_path,
    analysis, success: True}] with the conventional path and the content
    of the first choice. *)
Theorem workflow_succeeds
    (url prompt : string) (timeout : Z) (w : world)
    (text : string) (limit : float)
    (finished : completed_process) (after : gmap string node)
    (data : list byte) (c : ChatCompletion.t) (ch : Choice.t)
    (chs : list Choice.t) :
  files w !! screenshot_path <> Some Dir ->
  screenshot_call sys timeout = inr (text, limit) ->
  subprocess_run sys ["node"; "screenshot.js"; url; text] limit
    (delete screenshot_path (files w)) = (inr finished, after) ->
  returncode finished = 0 ->
  after !! "screenshot.jpg" = Some (File data) ->
  client self "gpt-4-vision-preview"
    [PDict
       [("role", PStr "user");
        ("content",
          PList
            [PDict [("type", PStr "text"); ("text", PStr prompt)];
             PDict
               [("type", PStr "image_url");
                ("image_url",
                  PDict
                    [("url", PStr ("data:image/jpeg;base64,"
                                   +:+ b64encode sys data));
                     ("detail", PStr "high")])]])]]
    1000 0.1%float = inr c ->
  ChatCompletion.choices c = ch :: chs ->
  fst (scrape_and_analyze sys self url prompt timeout w)
  = inr {[ "url" := PStr url;
           "screenshot_path" := PStr "screenshot.jpg";
           "analysis" := Message.content (Choice.message ch);
           "success" := PBool true ]}.
Proof.
  intros Hdir Hcall Hrun Hcode Himage Hclient Hchoices.
  destruct (take_screenshot_exit_zero url timeout w text limit finished after
              Hdir Hcall Hrun Hcode)
    as [w' [Htake Hfiles]].
  unfold scrape_and_analyze, try_except, bind. rewrite Htake.
  rewrite <- Hfiles in Himage.
  rewrite (analyze_screenshot_first_choice sys self "screenshot.jpg"
             prompt "gpt-4-vision-preview" 1000 w' data c ch chs
             Himage Hclient Hchoices).
  reflexivity.
Qed.

(** The screenshot step does not look for the image: when the process
    exits with 0 and leaves none, the failure comes from the analysis
    step, as a missing image file, and the workflow returns [{url, error,
    success: False}] with that text. *)
Theorem workflow_exit_zero_without_image
    (url prompt : string) (timeout : Z) (w : world)
    (text : string) (limit : float)
    (finished : completed_process) (after : gmap string node) :
  files w !! screenshot_path <> Some Dir ->
  screenshot_call sys timeout = inr (text, limit) ->
  subprocess_run sys ["node"; "screenshot.js"; url; text] limit
    (delete screenshot_path (files w)) = (inr finished, after) ->
  returncode finished = 0 ->
  after !! "screenshot.jpg" = None ->
  fst (scrape_and_analyze sys self url prompt timeout w)
  = inr {[ "url" := PStr url;
           "error" :=
             PStr "Error analyzing screenshot with GPT-4V: Image file not found: screenshot.jpg";
           "success" := PBool false ]}.
Proof.
  intros Hdir Hcall Hrun Hcode Himage.
  destruct (take_screenshot_exit_zero url timeout w text limit finished after
              Hdir Hcall Hrun Hcode)
    as [w' [Htake Hfiles]].
  unfold scrape_and_analyze, try_except, bind. rewrite Htake.
  unfold analyze_screenshot, encode_image, try_except, bind, read_binary,
    raise.
  rewrite Hfiles, Himage. reflexivity.
Qed.

(** The workflow starts at most one process and writes no file itself.
    When the arguments of the call exist it starts one process, on the
    files before without the image, and the files after it are the ones
    that process left; when they do not, it starts none and has only
    removed the image.  When the path is a directory nothing is started
    and nothing changes. *)
Theorem workflow_leaves_files_to_the_process
    (url prompt : string) (timeout : Z) (w : world) :
  let after := snd (scrape_and_analyze sys self url prompt timeout w) in
  match files w !! screenshot_path with
  | Some Dir => after = w
  | _ =>
      match screenshot_call sys timeout with
      | inr (text, limit) =>
          files after
          = snd (subprocess_run sys ["node"; "screenshot.js"; url; text] limit
                   (delete screenshot_path (files w))) /\
          spawned after
          = spawned w
            ++ [{| inv_args := ["node"; "screenshot.js"; url; text];
                   inv_timeout := limit;
                   inv_files := delete screenshot_path (files w) |}]
      | inl _ =>
          files after = delete screenshot_path (files w) /\
          spawned after = spawned w
      end
  end.
Proof.
  intros after. subst after.
  pose proof (take_screenshot_run sys self url timeout w) as H.
  unfold screenshot_args, clean_start in H.
  unfold scrape_and_analyze, try_except, bind, ret.
  destruct (files w !! screenshot_path) as [[data|]|] eqn:Hfile.
  2:{ destruct H as [e [-> _]]. reflexivity. }
  all: destruct (take_screenshot sys self url timeout w) as [[[e|]|path] w'];
    (destruct (screenshot_call sys timeout) as [e0|[text limit]];
     [ destruct H as [Hr [Hfiles Hspawned]]
     | destruct (subprocess_run sys _ _ _) as [ran left_];
       destruct H as [Hfiles [Hspawned _]] ]);
    try discriminate Hr; simpl; try (now split).
  all: pose proof (analyze_screenshot_world path prompt
                     "gpt-4-vision-preview" 1000 w') as Hw;
    destruct (analyze_screenshot sys self path prompt _ _ w')
      as [[[e|]|a] w''];
    simpl in *; subst w''; now split.
Qed.

End WholeWorkflow.

(** When the screenshot step does not return the client is not
    consulted: two scrapers that differ in their client give the same
    result. *)
Theorem workflow_failure_ignores_client
    (sys : System) (one other : VisionScraper.t) (url prompt : string)
    (timeout : Z) (w : world) (e : raised) :
  fst (VisionScraper.take_screenshot sys one url timeout w) = inl e ->
  VisionScraper.scrape_and_analyze sys other url prompt timeout w
  = VisionScraper.scrape_and_analyze sys one url prompt timeout w.
Proof.
  intros He.
  unfold VisionScraper.scrape_and_analyze, VisionScraper.try_except,
    VisionScraper.bind.
  change (VisionScraper.take_screenshot sys other url timeout w)
    with (VisionScraper.take_screenshot sys one url timeout w).
  destruct (VisionScraper.take_screenshot sys one url timeout w)
    as [[[e'|]|p] w']; [reflexivity | reflexivity | discriminate].
Qed.

(** ** Construction of the scraper *)

(** A scraper is built only with a non-empty [OPENAI_API_KEY] in the
    environment: without one construction raises, whatever the client
    constructor does; with one, and a client constructor that returns, it
    holds the client built from that key. *)
Theorem scraper_requires_environment_key
    (OpenAI : option string -> result completions_api)
    (environ : gmap string string) :
  (environ !! "OPENAI_API_KEY" = None \/
   environ !! "OPENAI_API_KEY" = Some "" ->
   exists e, VisionScraper.__init__ OpenAI environ = inl e) /\
  (forall k cl,
     k <> "" ->
     environ !! "OPENAI_API_KEY" = Some k ->
     OpenAI (Some k) = inr cl ->
     VisionScraper.__init__ OpenAI environ
     = inr {| VisionScraper.client := cl |}).
Proof.
  unfold VisionScraper.__init__. split.
  - intros H.
    destruct (OpenAI (environ !! "OPENAI_API_KEY")) as [e|cl]; simpl;
      [now exists e |].
    destruct H as [-> | ->]; simpl; eexists; reflexivity.
  - intros k cl Hk -> ->. destruct k as [|c k]; [congruence | reflexivity].
Qed.

(** With the client of this repository behind [OpenAI], the scraper's own
    check never fires: a missing key is already refused by the client's
    constructor, with the client's message; with a key the scraper holds
    that client at the default base URL. *)
Theorem scraper_over_repository_client
    (lib : Library) (environ : gmap string string) :
  (forall e,
     VisionScraper.__init__ (repo_OpenAI lib environ) environ = inl e ->
     cls e = ValueError /\
     msg e = "API key is required. Set OPENAI_API_KEY environment variable or pass api_key parameter.") /\
  (forall k,
     k <> "" ->
     environ !! "OPENAI_API_KEY" = Some k ->
     VisionScraper.__init__ (repo_OpenAI lib environ) environ
     = inr {| VisionScraper.client :=
                completions_of lib
                  {| CustomOpenAIClient.api_key := k;
                     CustomOpenAIClient.base_url :=
                       "https://api.omnia.reainternal.net" |} |}).
Proof.
  unfold VisionScraper.__init__, repo_OpenAI, CustomOpenAIClient.__init__,
    CustomOpenAIClient.py_or.
  split.
  - intros e.
    destruct (environ !! "OPENAI_API_KEY") as [[|c k]|]; simpl;
      intros [= <-]; split; reflexivity.
  - intros k Hk ->. destruct k as [|c k]; [congruence |]. reflexivity.
Qed.

(** ** Stripping *)

Lemma blank1_not_visible (a : ascii) :
  Str.blank1 a = true -> visible a = false.
Proof.
  destruct a as [[] [] [] [] [] [] [] []]; intros H;
    try reflexivity; discriminate H.
Qed.

Lemma visible_not_blank1 (a : ascii) :
  visible a = true -> Str.blank1 a = false.
Proof.
  intros H. destruct (Str.blank1 a) eqn:Hb; [| reflexivity].
  rewrite (blank1_not_visible a Hb) in H. discriminate.
Qed.

Lemma blank2_codes (a b : ascii) :
  Str.blank2 a b = true ->
  (Str.code a = 194 /\ (Str.code b = 133 \/ Str.code b = 160))%N.
Proof.
  unfold Str.blank2. intros H.
  apply andb_prop in H as [Ha Hb]. apply N.eqb_eq in Ha.
  apply orb_prop in Hb as [Hb | Hb]; apply N.eqb_eq in Hb; tauto.
Qed.

Lemma blank3_codes (a b c : ascii) :
  Str.blank3 a b c = true ->
  (225 <= Str.code a <= 227 /\ 128 <= Str.code b /\ 128 <= Str.code c)%N.
Proof.
  unfold Str.blank3. intros H.
  repeat match goal with
         | H : (_ || _)%bool = true |- _ => apply orb_prop in H as [H | H]
         | H : (_ && _)%bool = true |- _ =>
             let H1 := fresh "H" in apply andb_prop in H as [H H1]
         | H : (_ =? _)%N = true |- _ => apply N.eqb_eq in H
         | H : (_ <=? _)%N = true |- _ => apply N.leb_le in H
         end; lia.
Qed.

Lemma code_blank1 (a : ascii) : Str.blank1 a = true -> (Str.code a < 128)%N.
Proof.
  destruct a as [[] [] [] [] [] [] [] []]; intros H;
    try discriminate H; vm_compute; reflexivity.
Qed.

Lemma visible_codes (a : ascii) :
  visible a = true <-> (33 <= Str.code a <= 126)%N.
Proof.
  unfold visible. rewrite andb_true_iff, !N.leb_le. tauto.
Qed.

Lemma high_not_visible (a : ascii) :
  (128 <= Str.code a)%N -> visible a = false.
Proof.
  intros H. destruct (visible a) eqn:Hv; [| reflexivity].
  apply visible_codes in Hv. lia.
Qed.

Lemma blank2_false (a b : ascii) :
  (Str.code a <> 194)%N -> Str.blank2 a b = false.
Proof.
  intros H. destruct (Str.blank2 a b) eqn:Hb; [| reflexivity].
  apply blank2_codes in Hb. tauto.
Qed.

Lemma blank3_false (a b c : ascii) :
  (Str.code a < 225)%N -> Str.blank3 a b c = false.
Proof.
  intros H. destruct (Str.blank3 a b c) eqn:Hb; [| reflexivity].
  apply blank3_codes in Hb. lia.
Qed.

Lemma blank1_false (a : ascii) :
  (128 <= Str.code a)%N -> Str.blank1 a = false.
Proof.
  intros H. destruct (Str.blank1 a) eqn:Hb; [| reflexivity].
  apply code_blank1 in Hb. lia.
Qed.

(** The blanks in front of a text are dropped. *)
Lemma lstrip_blanks_run (pre x : string) :
  blank_run pre -> Str.lstrip_blanks (pre +:+ x) = Str.lstrip_blanks x.
Proof.
  induction 1 as [|a s Ha _ IH|a b s Hab _ IH|a b c s Habc _ IH].
  - reflexivity.
  - cbn [String.append Str.lstrip_blanks]. now rewrite Ha.
  - pose proof (blank2_codes a b Hab) as [Hc _].
    cbn [String.append Str.lstrip_blanks].
    rewrite (blank1_false a) by lia. now rewrite Hab.
  - pose proof (blank3_codes a b c Habc) as [Hc _].
    cbn [String.append Str.lstrip_blanks].
    rewrite (blank1_false a) by lia.
    rewrite (blank2_false a b) by lia. now rewrite Habc.
Qed.

(** A text that begins with a visible character keeps its front. *)
Lemma lstrip_blanks_visible (a : ascii) (x : string) :
  visible a = true -> Str.lstrip_blanks (String a x) = String a x.
Proof.
  intros Hv. pose proof (proj1 (visible_codes a) Hv) as Hc.
  cbn [Str.lstrip_blanks]. rewrite (visible_not_blank1 a Hv).
  destruct x as [|b [|c x]]; try reflexivity.
  - now rewrite (blank2_false a b) by lia.
  - rewrite (blank2_false a b) by lia.
    now rewrite (blank3_false a b c) by lia.
Qed.

Lemma all_blank_run (s : string) : blank_run s -> Str.all_blank s = true.
Proof.
  intros H. unfold Str.all_blank.
  rewrite <- (append_empty_r s), (lstrip_blanks_run s "" H). reflexivity.
Qed.

Lemma has_visible_app (s x : string) :
  has_visible (s +:+ x) = (has_visible s || has_visible x)%bool.
Proof.
  induction s as [|a s IH]; [reflexivity |].
  cbn [String.append has_visible]. now rewrite IH, orb_assoc.
Qed.

(** A text with a visible character is not a run of blanks. *)
Lemma visible_not_all_blank (s : string) :
  has_visible s = true -> Str.all_blank s = false.
Proof.
  unfold Str.all_blank.
  assert (H : forall n s, (String.length s <= n)%nat ->
                has_visible s = true -> Str.lstrip_blanks s <> EmptyString).
  { clear s. induction n as [|n IH]; intros s Hn Hv.
    - destruct s; [discriminate | simpl in Hn; lia].
    - destruct s as [|a s]; [discriminate |].
      cbn [Str.lstrip_blanks].
      destruct (Str.blank1 a) eqn:H1.
      { apply IH; [simpl in Hn; lia |].
        cbn [has_visible] in Hv.
        now rewrite (blank1_not_visible a H1) in Hv. }
      destruct s as [|b s]; [discriminate |].
      destruct (Str.blank2 a b) eqn:H2.
      { apply blank2_codes in H2 as [Ha Hb].
        apply IH; [simpl in Hn; lia |].
        cbn [has_visible] in Hv.
        rewrite (high_not_visible a), (high_not_visible b) in Hv by lia.
        exact Hv. }
      destruct s as [|c s]; [discriminate |].
      destruct (Str.blank3 a b c) eqn:H3; [| discriminate].
      apply blank3_codes in H3 as [Ha [Hb Hc]].
      apply IH; [simpl in Hn; lia |].
      cbn [has_visible] in Hv.
      rewrite (high_not_visible a), (high_not_visible b),
        (high_not_visible c) in Hv by lia.
      exact Hv. }
  intros Hv. specialize (H (String.length s) s (le_n _) Hv).
  destruct (Str.lstrip_blanks s); [congruence | reflexivity].
Qed.

Lemma rstrip_blanks_run (s : string) :
  blank_run s -> Str.rstrip_blanks s = EmptyString.
Proof.
  intros H. destruct s as [|a s]; [reflexivity |].
  cbn [Str.rstrip_blanks]. now rewrite (all_blank_run _ H).
Qed.

Lemma last_char_visible (s : string) (z : ascii) :
  Str.last_char s = Some z -> visible z = true -> has_visible s = true.
Proof.
  induction s as [|a s IH]; [discriminate |].
  destruct s as [|b s].
  - intros [= ->] Hz. cbn. now rewrite Hz.
  - intros Hl Hz.
    change ((visible a || has_visible (String b s))%bool = true).
    rewrite (IH Hl Hz). apply orb_true_r.
Qed.

(** The blanks behind a text that ends with a visible character are
    dropped, and nothing else. *)
Lemma rstrip_blanks_behind (core post : string) (z : ascii) :
  Str.last_char core = Some z -> visible z = true -> blank_run post ->
  Str.rstrip_blanks (core +:+ post) = core.
Proof.
  intros Hl Hz Hpost. revert Hl.
  induction core as [|a core IH]; [discriminate |]. intros Hl.
  cbn [String.append Str.rstrip_blanks].
  rewrite (visible_not_all_blank (String a (core +:+ post))).
  2:{ change (String a (core +:+ post)) with (String a core +:+ post).
      rewrite has_visible_app, (last_char_visible _ z Hl Hz). reflexivity. }
  destruct core as [|b core].
  - cbn [String.append]. now rewrite (rstrip_blanks_run post Hpost).
  - now rewrite IH.
Qed.

(** [strip] on a line of blanks around a framed text, and on a line of
    blanks only. *)
Lemma strip_framed (before text after : string) :
  blank_run before -> blank_run after -> framed text ->
  Str.strip (before +:+ text +:+ after) = text.
Proof.
  intros Hb Ha (a & rest & z & -> & Hv & Hl & Hz).
  unfold Str.strip. rewrite (lstrip_blanks_run before _ Hb).
  change (String a rest +:+ after) with (String a (rest +:+ after)).
  rewrite (lstrip_blanks_visible a _ Hv).
  change (String a (rest +:+ after)) with (String a rest +:+ after).
  exact (rstrip_blanks_behind _ _ z Hl Hz Ha).
Qed.

Lemma strip_blank (before after : string) :
  blank_run before -> blank_run after ->
  Str.strip (before +:+ after) = EmptyString.
Proof.
  intros Hb Ha. unfold Str.strip. rewrite (lstrip_blanks_run before _ Hb).
  pose proof (all_blank_run after Ha) as H. unfold Str.all_blank in H.
  destruct (Str.lstrip_blanks after); [reflexivity | discriminate].
Qed.

Lemma or_default_answer (line default value : string) :
  answer line default value -> or_default line default = value.
Proof.
  intros (before & text & after & -> & Hb & Ha & [[-> ->] | [Hf ->]]).
  - unfold or_default. cbn [String.append].
    now rewrite (strip_blank before after Hb Ha).
  - unfold or_default. rewrite (strip_framed before text after Hb Ha Hf).
    destruct Hf as (a & rest & _ & -> & _). reflexivity.
Qed.

(** A framed text is its own answer. *)
Lemma answer_framed (text default : string) :
  framed text -> answer text default text.
Proof.
  intros Hf. exists "", text, "".
  split; [now rewrite append_empty_r |].
  split; [constructor |]. split; [constructor |]. now right.
Qed.

Lemma answer_settled (line default value : string) :
  framed default -> answer line default value -> framed value.
Proof.
  intros Hd (b & t & a & _ & _ & _ & [[_ ->] | [Hf ->]]); assumption.
Qed.

Lemma framed_defaults : framed default_url /\ framed default_prompt.
Proof.
  split; eexists _, _, _; repeat split; reflexivity.
Qed.


(** ** The command line *)

Section Main.

Context (OpenAI : option string -> result completions_api).
Context (sys : System) (environ : gmap string string).
Context (fmt : pyval -> string).

Lemma wrote_wrote (w : world) (l1 l2 : list string) :
  wrote (wrote w l1) l2 = wrote w (l1 ++ l2).
Proof. unfold wrote. simpl. now rewrite app_assoc. Qed.

(** What [main] does once the scraper is built and both lines are read. *)
Lemma main_run (scraper : VisionScraper.t) (u p : string)
    (rest : list string) (k : key) (w : world) :
  VisionScraper.__init__ OpenAI environ = inr scraper ->
  let url := or_default u default_url in
  let prompt := or_default p default_prompt in
  let run :=
    VisionScraper.scrape_and_analyze sys scraper url prompt 30000
      (asked url w) in
  main OpenAI sys environ fmt
    {| typed := u :: p :: rest; at_end := k; around := w |}
  = match fst run with
    | inl KeyboardInterrupt =>
        {| typed := rest; at_end := k;
           around := wrote (snd run)
                       [Str.newline +:+ "Operation cancelled by user"] |}
    | inl (Err e) =>
        {| typed := rest; at_end := k;
           around := wrote (snd run) ["Error: " +:+ msg e] |}
    | inr d =>
        match
          (success <- item d "success" ;;
           if py_truthy success then
             (_ <- say (Str.newline +:+ rule) ;;
              _ <- say "ANALYSIS RESULT:" ;;
              _ <- say rule ;;
              analysis <- item d "analysis" ;;
              _ <- say (py_str fmt analysis) ;;
              say (Str.newline +:+ rule))
           else
             (error <- item d "error" ;;
              say ("Error: " +:+ py_str fmt error)))%main
          {| typed := rest; at_end := k; around := snd run |}
        with
        | (inr _, s') => s'
        | (inl Cancelled, s') =>
            snd (say (Str.newline +:+ "Operation cancelled by user") s')
        | (inl (Failed e), s') => snd (say ("Error: " +:+ e) s')
        end
    end.
Proof.
  intros Hs url prompt run.
  unfold main, tbind at 1 2 3 4 5, of_result, in_world at 1 2,
    VisionScraper.lift, input.
  rewrite Hs. cbn [typed around at_end]. unfold say at 1, in_world at 1,
    VisionScraper.print. cbn [typed around at_end files console spawned].
  fold url prompt.
  match goal with
  | |- context [VisionScraper.scrape_and_analyze sys scraper url prompt 30000 ?w0] =>
      replace w0 with (asked url w)
        by (unfold asked, wrote; f_equal; now rewrite <- !app_assoc)
  end.
  fold run. destruct run as [[[e|]|d] w2]; reflexivity.
Qed.

(** Once the scraper is built, [main] takes from each typed line the
    text between the blanks around it, Unicode blanks included, and the
    default for a line of blanks only: it runs as if the URL and the
    prompt it settles on had been typed as they are. *)
Theorem main_reads_stripped_lines
    (scraper : VisionScraper.t) (u p url prompt : string)
    (rest : list string) (k : key) (w : world) :
  VisionScraper.__init__ OpenAI environ = inr scraper ->
  answer u "https://example.com" url ->
  answer p
    "Describe what you see on this webpage. Include any important text, buttons, links, and overall layout."
    prompt ->
  main OpenAI sys environ fmt
    {| typed := u :: p :: rest; at_end := k; around := w |}
  = main OpenAI sys environ fmt
      {| typed := url :: prompt :: rest; at_end := k; around := w |}.
Proof.
  intros Hs Hu Hp.
  destruct framed_defaults as [Hfu Hfp].
  pose proof (answer_framed url default_url
                (answer_settled _ _ _ Hfu Hu)) as Hurl.
  pose proof (answer_framed prompt default_prompt
                (answer_settled _ _ _ Hfp Hp)) as Hprompt.
  rewrite (main_run scraper u p rest k w Hs),
    (main_run scraper url prompt rest k w Hs).
  cbv zeta.
  rewrite (or_default_answer _ _ _ Hu : or_default u default_url = url),
    (or_default_answer _ _ _ Hp : or_default p default_prompt = prompt).
  rewrite (or_default_answer _ _ _ Hurl), (or_default_answer _ _ _ Hprompt).
  reflexivity.
Qed.

(** When the scraper cannot be built, [main] prints the error and stops:
    it asks nothing, reads nothing and starts no process. *)
Theorem main_without_scraper (e : exn) (s : session) :
  VisionScraper.__init__ OpenAI environ = inl e ->
  main OpenAI sys environ fmt s
  = {| typed := typed s; at_end := at_end s;
       around := wrote (around s) ["Error: " +:+ msg e] |}.
Proof.
  intros He. unfold main, tbind, of_result, in_world, VisionScraper.lift.
  rewrite He. reflexivity.
Qed.

(** When the input ends at one of the two questions, [main] prints the
    end-of-file error after the question and starts no process. *)
Theorem main_end_of_input
    (scraper : VisionScraper.t) (u : string) (w : world) :
  VisionScraper.__init__ OpenAI environ = inr scraper ->
  main OpenAI sys environ fmt
    {| typed := []; at_end := EndOfFile; around := w |}
  = {| typed := []; at_end := EndOfFile;
       around := wrote w ["Enter URL to scrape: ";
                          "Error: EOF when reading a line"] |} /\
  main OpenAI sys environ fmt
    {| typed := [u]; at_end := EndOfFile; around := w |}
  = {| typed := []; at_end := EndOfFile;
       around := wrote w ["Enter URL to scrape: ";
                          "Enter analysis prompt (default: describe the page): ";
                          "Error: EOF when reading a line"] |}.
Proof.
  intros Hs. unfold main, tbind, of_result, in_world, VisionScraper.lift, input.
  rewrite Hs. cbn [typed around at_end].
  unfold say, in_world, VisionScraper.print, wrote.
  cbn [typed around at_end files console spawned snd].
  split; f_equal; f_equal; now rewrite <- ?app_assoc.
Qed.

(** With both answers typed, [main] runs the workflow with the timeout
    of 30000 ms on the URL and the prompt it settles on: for each line
    the text between the blanks around it, or the default for a line of
    blanks only.  It then prints the analysis between two rules of fifty
    [=] when the result is [{url, screenshot_path, analysis, success:
    True}], and [Error: ] with the error when it is [{url, error,
    success: False}]. *)
Theorem main_reports
    (scraper : VisionScraper.t) (u p url prompt : string)
    (rest : list string) (k : key) (w : world) :
  VisionScraper.__init__ OpenAI environ = inr scraper ->
  answer u "https://example.com" url ->
  answer p
    "Describe what you see on this webpage. Include any important text, buttons, links, and overall layout."
    prompt ->
  let run :=
    VisionScraper.scrape_and_analyze sys scraper url prompt 30000
      (wrote w ["Enter URL to scrape: ";
                "Enter analysis prompt (default: describe the page): ";
                "Scraping and analyzing: " +:+ url]) in
  (forall path analysis,
     fst run = inr {[ "url" := PStr url;
                      "screenshot_path" := PStr path;
                      "analysis" := analysis;
                      "success" := PBool true ]} ->
     main OpenAI sys environ fmt
       {| typed := u :: p :: rest; at_end := k; around := w |}
     = {| typed := rest; at_end := k;
          around :=
            wrote (snd run)
              [String "010" "==================================================";
               "ANALYSIS RESULT:";
               "==================================================";
               match analysis with PStr s => s | other => fmt other end;
               String "010" "=================================================="] |}) /\
  (forall error,
     fst run = inr {[ "url" := PStr url;
                      "error" := PStr error;
                      "success" := PBool false ]} ->
     main OpenAI sys environ fmt
       {| typed := u :: p :: rest; at_end := k; around := w |}
     = {| typed := rest; at_end := k;
          around := wrote (snd run) ["Error: " +:+ error] |}).
Proof.
  intros Hs Hu Hp run.
  pose proof (main_run scraper u p rest k w Hs) as Hmain.
  cbv zeta in Hmain.
  rewrite (or_default_answer _ _ _ Hu : or_default u default_url = url),
    (or_default_answer _ _ _ Hp : or_default p default_prompt = prompt)
    in Hmain.
  change (VisionScraper.scrape_and_analyze sys scraper url prompt 30000
            (asked url w)) with run in Hmain.
  split.
  - intros path analysis Hrun. rewrite Hmain, Hrun.
    unfold tbind, item, say, in_world, VisionScraper.print.
    cbn. unfold wrote. f_equal. f_equal.
    cbn [console around typed files spawned].
    rewrite <- !app_assoc. reflexivity.
  - intros error Hrun. rewrite Hmain, Hrun.
    unfold tbind, item, say, in_world, VisionScraper.print.
    cbn. reflexivity.
Qed.

(** The interrupt key is caught and reported as a cancellation: pressed
    at one of the two questions, or while the workflow waits for the
    screenshot process, [main] prints the cancellation line after what
    was written so far, and no error. *)
Theorem main_cancelled
    (scraper : VisionScraper.t) (u p : string) (rest : list string)
    (k : key) (w : world) :
  VisionScraper.__init__ OpenAI environ = inr scraper ->
  main OpenAI sys environ fmt
    {| typed := []; at_end := Interrupt; around := w |}
  = {| typed := []; at_end := Interrupt;
       around := wrote w ["Enter URL to scrape: ";
                          String "010" "Operation cancelled by user"] |} /\
  main OpenAI sys environ fmt
    {| typed := [u]; at_end := Interrupt; around := w |}
  = {| typed := []; at_end := Interrupt;
       around := wrote w ["Enter URL to scrape: ";
                          "Enter analysis prompt (default: describe the page): ";
                          String "010" "Operation cancelled by user"] |} /\
  (forall url prompt,
     answer u "https://example.com" url ->
     answer p
       "Describe what you see on this webpage. Include any important text, buttons, links, and overall layout."
       prompt ->
     let run :=
       VisionScraper.scrape_and_analyze sys scraper url prompt 30000
         (wrote w ["Enter URL to scrape: ";
                   "Enter analysis prompt (default: describe the page): ";
                   "Scraping and analyzing: " +:+ url]) in
     fst run = inl KeyboardInterrupt ->
     main OpenAI sys environ fmt
       {| typed := u :: p :: rest; at_end := k; around := w |}
     = {| typed := rest; at_end := k;
          around := wrote (snd run)
                      [String "010" "Operation cancelled by user"] |}).
Proof.
  intros Hs. split; [| split].
  - unfold main, tbind, of_result, in_world, VisionScraper.lift, input.
    rewrite Hs. cbn [typed around at_end].
    unfold say, in_world, VisionScraper.print, wrote.
    cbn [typed around at_end files console spawned snd].
    f_equal; f_equal; now rewrite <- ?app_assoc.
  - unfold main, tbind, of_result, in_world, VisionScraper.lift, input.
    rewrite Hs. cbn [typed around at_end].
    unfold say, in_world, VisionScraper.print, wrote.
    cbn [typed around at_end files console spawned snd].
    f_equal; f_equal; now rewrite <- ?app_assoc.
  - intros url prompt Hu Hp run Hrun.
    pose proof (main_run scraper u p rest k w Hs) as Hmain.
    cbv zeta in Hmain.
    rewrite (or_default_answer _ _ _ Hu : or_default u default_url = url),
      (or_default_answer _ _ _ Hp : or_default p default_prompt = prompt)
      in Hmain.
    change (VisionScraper.scrape_and_analyze sys scraper url prompt 30000
              (asked url w)) with run in Hmain.
    rewrite Hmain, Hrun. reflexivity.
Qed.

End Main.

(** * The further properties on sample surroundings *)

Example strip_drops_blanks_around :
  Str.strip (" " +:+ Fixture.tab +:+ "https://example.org " +:+ Fixture.tab)
  = "https://example.org" /\
  Str.strip (" " +:+ Fixture.tab) = "" /\
  or_default (" " +:+ Fixture.tab) default_url = "https://example.com".
Proof. repeat split. Qed.

(** Blanks of more than one byte are stripped as well; a letter of two
    bytes is kept. *)
Example strip_of_no_break_space :
  Str.strip Fixture.nbsp = "" /\
  or_default Fixture.nbsp default_url = "https://example.com" /\
  or_default ("  example.org" +:+ Fixture.nbsp +:+ Fixture.tab) default_url
  = "example.org".
Proof. repeat split. Qed.

Example strip_keeps_letters :
  Str.strip (Fixture.nbsp +:+ Fixture.e_acute +:+ " ") = Fixture.e_acute.
Proof. reflexivity. Qed.

(** A line of a space and a tab, and a line of one no-break space, are
    answered by the default. *)
Lemma blank_line_answers_default (default : string) :
  answer (" " +:+ Fixture.tab) default default /\
  answer Fixture.nbsp default default.
Proof.
  split.
  - exists (" " +:+ Fixture.tab), "", "".
    split; [reflexivity |].
    split; [repeat constructor |]. split; [constructor | now left].
  - exists Fixture.nbsp, "", "".
    split; [reflexivity |].
    split; [apply blank_two; [reflexivity | constructor] |].
    split; [constructor | now left].
Qed.

Lemma padded_line_answers_text :
  answer ("https://example.org " +:+ Fixture.tab) default_url
    "https://example.org".
Proof.
  exists "", "https://example.org", (" " +:+ Fixture.tab).
  split; [reflexivity |]. split; [constructor |].
  split; [repeat constructor |]. right.
  split; [| reflexivity]. eexists _, _, _. repeat split; reflexivity.
Qed.

Lemma body_holds_named_fields_and_extras_witness :
  exists req,
    calls (client_create (Fixture.answering 200 "OK" Sample.completion_text)
             Sample.client "gpt-4o" Sample.messages 1000 0.1%float
             {[ "top_p" := PFloat 0.9%float ]}) = [req] /\
    size (req_json req) = 5%nat.
Proof.
  destruct (body_holds_named_fields_and_extras
              (Fixture.answering 200 "OK" Sample.completion_text)
              Sample.client "gpt-4o" Sample.messages 1000 0.1%float
              {[ "top_p" := PFloat 0.9%float ]})
    as [req [Hcalls [_ [_ [_ [_ [_ Hsize]]]]]]].
  - apply extra_is_extra_check. vm_compute. reflexivity.
  - exists req. split; [exact Hcalls |]. rewrite Hsize. vm_compute. reflexivity.
Defined.

Lemma transport_failure_surfaced_witness :
  outcome (client_create Fixture.unreachable Sample.client "gpt-4o"
             Sample.messages 1000 0.1%float ∅)
  = inl (mk_exn Exception_ "API request failed: Connection refused").
Proof.
  apply (transport_failure_surfaced Fixture.unreachable Sample.client "gpt-4o"
           Sample.messages 1000 0.1%float ∅ Fixture.refused).
  - apply extra_is_extra_check. vm_compute. reflexivity.
  - reflexivity.
  - reflexivity.
  - reflexivity.
Defined.

Lemma create_raises_one_family_witness :
  client_error_shape "API request failed: Connection refused" = true.
Proof.
  apply (create_raises_one_family Fixture.unreachable Sample.client "gpt-4o"
           Sample.messages 1000 0.1%float ∅
           (mk_exn Exception_ "API request failed: Connection refused")).
  - apply extra_is_extra_check. vm_compute. reflexivity.
  - vm_compute. reflexivity.
Defined.

Lemma http_error_without_message_key_witness :
  outcome (client_create (Fixture.answering 404 "Not Found" "{}")
             Sample.client "gpt-4o" Sample.messages 1000 0.1%float ∅)
  = inl (mk_exn Exception_
           ("API request failed: 404 Client Error: Not Found for url: "
            +:+ Fixture.url)).
Proof.
  apply (http_error_without_message_key
           (Fixture.answering 404 "Not Found" "{}")
           Sample.client "gpt-4o" Sample.messages 1000 0.1%float ∅
           {| status_code := 404; reason := "Not Found";
              resp_url := Fixture.url; text := "{}" |} []).
  - apply extra_is_extra_check. vm_compute. reflexivity.
  - reflexivity.
  - unfold is_4xx_5xx. simpl. lia.
  - reflexivity.
  - left. reflexivity.
Defined.

Lemma http_error_body_not_an_object_witness :
  outcome (client_create (Fixture.answering 500 "Internal Server Error" "[]")
             Sample.client "gpt-4o" Sample.messages 1000 0.1%float ∅)
  = inl (mk_exn Exception_ "API request failed: HTTP 500: []").
Proof.
  apply (http_error_body_not_an_object
           (Fixture.answering 500 "Internal Server Error" "[]")
           Sample.client "gpt-4o" Sample.messages 1000 0.1%float ∅
           {| status_code := 500; reason := "Internal Server Error";
              resp_url := Fixture.url; text := "[]" |} (PList [])).
  - apply extra_is_extra_check. vm_compute. reflexivity.
  - reflexivity.
  - unfold is_4xx_5xx. simpl. lia.
  - reflexivity.
  - left. reflexivity.
Defined.

Lemma success_body_not_an_object_witness :
  outcome (client_create (Fixture.answering 200 "OK" "[]")
             Sample.client "gpt-4o" Sample.messages 1000 0.1%float ∅)
  = inl (mk_exn Exception_
           "Unexpected error: 'list' object has no attribute 'get'").
Proof.
  apply (success_body_not_an_object (Fixture.answering 200 "OK" "[]")
           Sample.client "gpt-4o" Sample.messages 1000 0.1%float ∅
           {| status_code := 200; reason := "OK";
              resp_url := Fixture.url; text := "[]" |} (PList [])).
  - apply extra_is_extra_check. vm_compute. reflexivity.
  - reflexivity.
  - unfold is_2xx. simpl. lia.
  - reflexivity.
  - reflexivity.
Defined.

Lemma success_choices_not_iterable_witness :
  outcome (client_create (Fixture.answering 200 "OK" Fixture.null_choices_text)
             Sample.client "gpt-4o" Sample.messages 1000 0.1%float ∅)
  = inl (mk_exn Exception_
           "Unexpected error: 'NoneType' object is not iterable").
Proof.
  apply (success_choices_not_iterable
           (Fixture.answering 200 "OK" Fixture.null_choices_text)
           Sample.client "gpt-4o" Sample.messages 1000 0.1%float ∅
           {| status_code := 200; reason := "OK";
              resp_url := Fixture.url; text := Fixture.null_choices_text |}
           [("choices", PNone)] PNone).
  - apply extra_is_extra_check. vm_compute. reflexivity.
  - reflexivity.
  - unfold is_2xx. simpl. lia.
  - vm_compute. reflexivity.
  - reflexivity.
  - reflexivity.
Defined.

Lemma constructed_client_request_witness :
  exists c req,
    outcome (CustomOpenAIClient.__init__ Fixture.environ (Some "")
               "https://api.example.test//") = inr c /\
    calls (client_create (Fixture.answering 200 "OK" Sample.completion_text)
             c "gpt-4o" Sample.messages 1000 0.1%float ∅) = [req] /\
    req_url req = Fixture.url /\
    req_headers req !! "Authorization" = Some "Bearer sk-env".
Proof.
  destruct (constructed_client_request
              (Fixture.answering 200 "OK" Sample.completion_text)
              Fixture.environ (Some "") "https://api.example.test//" "sk-env"
              "gpt-4o" Sample.messages 1000 0.1%float ∅)
    as [c [req [Hc [Hcalls [Hurl [Hauth _]]]]]].
  - split; [discriminate |]. right. split; [now right | reflexivity].
  - apply extra_is_extra_check. vm_compute. reflexivity.
  - exists c, req. repeat split; assumption.
Defined.

Lemma decode_keeps_present_values_witness :
  exists c,
    ChatCompletion.__init__
      (PDict [("id", PStr "cmpl-1");
              ("choices", PList [PDict [("index", PInt 0)]; PDict []])])
    = inr c /\
    ChatCompletion.id_ c = PStr "cmpl-1" /\
    length (ChatCompletion.choices c) = 2%nat.
Proof.
  destruct (decode_keeps_present_values
              [("id", PStr "cmpl-1");
               ("choices", PList [PDict [("index", PInt 0)]; PDict []])])
    as [c [Hc [Hid [_ [_ [_ [_ [Hlen _]]]]]]]].
  - reflexivity.
  - exists c. repeat split; assumption.
Defined.

Lemma take_screenshot_returns_iff_exit_zero_witness :
  fst (VisionScraper.take_screenshot Fixture.idle_camera Fixture.scraper
         "https://example.com" 30000 Sample.stale_world)
  = inr "screenshot.jpg".
Proof.
  apply (take_screenshot_returns_iff_exit_zero Fixture.idle_camera
           Fixture.scraper "https://example.com" 30000 Sample.stale_world).
  - discriminate.
  - split; [reflexivity |].
    exists "30000", 40%float,
      {| returncode := 0; stdout := ""; stderr := "" |}.
    split; [vm_compute; reflexivity |]. split; reflexivity.
Defined.

Lemma take_screenshot_failure_text_witness :
  fst (VisionScraper.take_screenshot Fixture.broken_camera Fixture.scraper
         "https://example.com" 30000 Sample.stale_world)
  = inl (Err (mk_exn Exception_
                "Error taking screenshot: Screenshot script failed: crashed")).
Proof.
  pose proof (take_screenshot_failure_text Fixture.broken_camera
                Fixture.scraper "https://example.com" 30000
                Sample.stale_world) as H.
  change (VisionScraper.screenshot_call Fixture.broken_camera 30000)
    with (@inr exn _ ("30000", 40%float)) in H.
  apply H; discriminate.
Defined.

Lemma take_screenshot_console_witness :
  console (snd (VisionScraper.take_screenshot Fixture.camera Fixture.scraper
                  "https://example.com" 30000 Sample.stale_world))
  = ["Removed existing screenshot";
     "Taking screenshot of: https://example.com";
     "Screenshot taken successfully"].
Proof.
  rewrite (take_screenshot_console Fixture.camera Fixture.scraper
             "https://example.com" 30000 Sample.stale_world);
    [reflexivity | discriminate].
Defined.

Lemma analyze_screenshot_missing_image_witness :
  fst (VisionScraper.analyze_screenshot Fixture.camera Fixture.scraper
         "screenshot.jpg" "describe the page" "gpt-4-vision-preview" 1000
         Sample.empty_world)
  = inl (Err (mk_exn Exception_
                "Error analyzing screenshot with GPT-4V: Image file not found: screenshot.jpg")).
Proof.
  apply (analyze_screenshot_missing_image Fixture.camera Fixture.scraper
           "screenshot.jpg" "describe the page" "gpt-4-vision-preview" 1000
           Sample.empty_world).
  reflexivity.
Defined.

Lemma analyze_screenshot_client_failures_witness :
  fst (VisionScraper.analyze_screenshot Fixture.camera Fixture.silent_scraper
         "screenshot.jpg" "describe the page" "gpt-4-vision-preview" 1000
         Fixture.with_image)
  = inl (Err (mk_exn Exception_
                "Error analyzing screenshot with GPT-4V: list index out of range")).
Proof.
  apply (analyze_screenshot_client_failures Fixture.camera
           Fixture.silent_scraper "screenshot.jpg" "describe the page"
           "gpt-4-vision-preview" 1000 Fixture.with_image Fixture.new_image);
    reflexivity.
Defined.

Lemma analyze_screenshot_returns_content_witness :
  VisionScraper.analyze_screenshot Fixture.camera Fixture.scraper
    "screenshot.jpg" "describe the page" "gpt-4-vision-preview" 1000
    Fixture.with_image
  = (inr (PStr "a login form"), Fixture.with_image).
Proof.
  apply (analyze_screenshot_returns_content Fixture.camera Fixture.scraper
           "screenshot.jpg" "describe the page" "gpt-4-vision-preview" 1000
           Fixture.with_image Fixture.new_image
           (ChatCompletion.Build_t [Fixture.reply "a login form"]
              PNone PNone PNone PNone PNone)
           (Fixture.reply "a login form") []);
    reflexivity.
Defined.

Lemma workflow_succeeds_witness :
  fst (VisionScraper.scrape_and_analyze Fixture.camera Fixture.scraper
         "https://example.com" "describe the page" 30000 Sample.stale_world)
  = inr {[ "url" := PStr "https://example.com";
           "screenshot_path" := PStr "screenshot.jpg";
           "analysis" := PStr "a login form";
           "success" := PBool true ]}.
Proof.
  apply (workflow_succeeds Fixture.camera Fixture.scraper
           "https://example.com" "describe the page" 30000 Sample.stale_world
           "30000" 40%float
           {| returncode := 0; stdout := ""; stderr := "" |}
           {[ "screenshot.jpg" := File Fixture.new_image ]}
           Fixture.new_image
           (ChatCompletion.Build_t [Fixture.reply "a login form"]
              PNone PNone PNone PNone PNone)
           (Fixture.reply "a login form") []);
    try reflexivity.
  discriminate.
Defined.

Lemma workflow_exit_zero_without_image_witness :
  fst (VisionScraper.scrape_and_analyze Fixture.idle_camera Fixture.scraper
         "https://example.com" "describe the page" 30000 Sample.stale_world)
  = inr {[ "url" := PStr "https://example.com";
           "error" :=
             PStr "Error analyzing screenshot with GPT-4V: Image file not found: screenshot.jpg";
           "success" := PBool false ]}.
Proof.
  apply (workflow_exit_zero_without_image Fixture.idle_camera Fixture.scraper
           "https://example.com" "describe the page" 30000 Sample.stale_world
           "30000" 40%float
           {| returncode := 0; stdout := ""; stderr := "" |} ∅);
    try reflexivity.
  discriminate.
Defined.

Lemma workflow_failure_ignores_client_witness :
  VisionScraper.scrape_and_analyze Fixture.broken_camera Fixture.silent_scraper
    "https://example.com" "describe the page" 30000 Sample.stale_world
  = VisionScraper.scrape_and_analyze Fixture.broken_camera Fixture.scraper
      "https://example.com" "describe the page" 30000 Sample.stale_world.
Proof.
  apply (workflow_failure_ignores_client Fixture.broken_camera
           Fixture.scraper Fixture.silent_scraper
           "https://example.com" "describe the page" 30000 Sample.stale_world
           (Err (mk_exn Exception_
                   "Error taking screenshot: Screenshot script failed: crashed"))).
  reflexivity.
Defined.

Lemma scraper_requires_environment_key_witness :
  (exists e, VisionScraper.__init__ Fixture.OpenAI ∅ = inl e) /\
  VisionScraper.__init__ Fixture.OpenAI Fixture.environ = inr Fixture.scraper.
Proof.
  split.
  - apply (scraper_requires_environment_key Fixture.OpenAI ∅).
    left. reflexivity.
  - apply (proj2 (scraper_requires_environment_key Fixture.OpenAI
                    Fixture.environ) "sk-env");
      [discriminate | reflexivity | reflexivity].
Defined.

Lemma scraper_over_repository_client_witness :
  exists cl,
    VisionScraper.__init__
      (repo_OpenAI (Fixture.answering 200 "OK" Sample.completion_text)
         Fixture.environ)
      Fixture.environ
    = inr {| VisionScraper.client := cl |}.
Proof.
  eexists.
  apply (proj2 (scraper_over_repository_client
                  (Fixture.answering 200 "OK" Sample.completion_text)
                  Fixture.environ) "sk-env");
    [discriminate | reflexivity].
Defined.

Lemma main_reads_stripped_lines_witness :
  main Fixture.OpenAI Fixture.camera Fixture.environ Sample.format
    {| typed := [" " +:+ Fixture.tab; Fixture.nbsp]; at_end := EndOfFile;
       around := Sample.empty_world |}
  = main Fixture.OpenAI Fixture.camera Fixture.environ Sample.format
      {| typed := [default_url; default_prompt]; at_end := EndOfFile;
         around := Sample.empty_world |}.
Proof.
  apply (main_reads_stripped_lines Fixture.OpenAI Fixture.camera
           Fixture.environ Sample.format Fixture.scraper).
  - reflexivity.
  - apply blank_line_answers_default.
  - apply blank_line_answers_default.
Defined.

Lemma main_without_scraper_witness :
  main Fixture.OpenAI Fixture.camera ∅ Sample.format
    {| typed := ["https://example.com"]; at_end := EndOfFile;
       around := Sample.empty_world |}
  = {| typed := ["https://example.com"]; at_end := EndOfFile;
       around :=
         wrote Sample.empty_world
           ["Error: OPENAI_API_KEY not found in environment variables"] |}.
Proof.
  apply (main_without_scraper Fixture.OpenAI Fixture.camera ∅ Sample.format
           (mk_exn ValueError "OPENAI_API_KEY not found in environment variables")).
  reflexivity.
Defined.

Lemma main_end_of_input_witness :
  main Fixture.OpenAI Fixture.camera Fixture.environ Sample.format
    {| typed := []; at_end := EndOfFile; around := Sample.empty_world |}
  = {| typed := []; at_end := EndOfFile;
       around := wrote Sample.empty_world
                   ["Enter URL to scrape: ";
                    "Error: EOF when reading a line"] |}.
Proof.
  apply (main_end_of_input Fixture.OpenAI Fixture.camera Fixture.environ
           Sample.format Fixture.scraper "").
  reflexivity.
Defined.

Lemma main_reports_witness :
  console (around
    (main Fixture.OpenAI Fixture.broken_camera Fixture.environ Sample.format
       {| typed := [Fixture.nbsp; " " +:+ Fixture.tab]; at_end := EndOfFile;
          around := Sample.empty_world |}))
  = ["Enter URL to scrape: ";
     "Enter analysis prompt (default: describe the page): ";
     "Scraping and analyzing: https://example.com";
     "Taking screenshot of: https://example.com";
     "Error: Error taking screenshot: Screenshot script failed: crashed"].
Proof.
  rewrite (proj2 (main_reports Fixture.OpenAI Fixture.broken_camera
                    Fixture.environ Sample.format Fixture.scraper
                    Fixture.nbsp (" " +:+ Fixture.tab)
                    default_url default_prompt [] EndOfFile
                    Sample.empty_world eq_refl
                    (proj2 (blank_line_answers_default default_url))
                    (proj1 (blank_line_answers_default default_prompt)))
             "Error taking screenshot: Screenshot script failed: crashed");
    vm_compute; reflexivity.
Defined.

Lemma main_cancelled_witness :
  console (around
    (main Fixture.OpenAI Fixture.interrupted_camera Fixture.environ
       Sample.format
       {| typed := ["https://example.org " +:+ Fixture.tab; Fixture.nbsp];
          at_end := EndOfFile; around := Sample.empty_world |}))
  = ["Enter URL to scrape: ";
     "Enter analysis prompt (default: describe the page): ";
     "Scraping and analyzing: https://example.org";
     "Taking screenshot of: https://example.org";
     String "010" "Operation cancelled by user"].
Proof.
  rewrite (proj2 (proj2 (main_cancelled Fixture.OpenAI
                           Fixture.interrupted_camera Fixture.environ
                           Sample.format Fixture.scraper
                           ("https://example.org " +:+ Fixture.tab)
                           Fixture.nbsp [] EndOfFile Sample.empty_world
                           eq_refl))
             "https://example.org" default_prompt
             padded_line_answers_text
             (proj2 (blank_line_answers_default default_prompt)));
    vm_compute; reflexivity.
Defined.

Example main_prints_the_analysis :
  console (around
    (main Fixture.OpenAI Fixture.camera Fixture.environ Sample.format
       {| typed := ["https://example.org "; ""]; at_end := EndOfFile;
          around := Sample.empty_world |}))
  = ["Enter URL to scrape: ";
     "Enter analysis prompt (default: describe the page): ";
     "Scraping and analyzing: https://example.org";
     "Taking screenshot of: https://example.org";
     "Screenshot taken successfully";
     Str.newline +:+ rule; "ANALYSIS RESULT:"; rule; "a login form";
     Str.newline +:+ rule].
Proof. vm_compute. reflexivity. Qed.

(** The interrupt key at the first question. *)
Example main_interrupted_at_the_first_question :
  console (around
    (main Fixture.OpenAI Fixture.camera Fixture.environ Sample.format
       {| typed := []; at_end := Interrupt; around := Sample.empty_world |}))
  = ["Enter URL to scrape: "; String "010" "Operation cancelled by user"].
Proof. vm_compute. reflexivity. Qed.
